(** * pocket-http-db: the request handlers over the in-memory mirror

    A shallow embedding of [router/router.go].  The handlers of the router
    read the mirror ([rt.Cache]), call the Store ([rt.Writer]) and, when the
    Store accepted the write, replay it on the object the mirror handed out.

    - [repository]: the entity records the handlers read and write.
    - [time]: the instant of a [time.Time] and its [IsZero] test.
    - [cache]: the mirror and its lookups.
    - [Writer]: the Store interface of router.go, lines 24-36.
    - [handler]: the effects of a handler (mirror, Store calls, early
      return, run-time panic) as a small monad.
    - [Router]: the handlers, statement by statement. *)

From stdpp Require Import base option list strings gmap.
From Stdlib Require Import ZArith Ascii.

Local Open Scope string_scope.
Local Open Scope Z_scope.

(** ** time.Time

    A [time.Time] is modelled by its instant, counted from January 1, year 1,
    00:00:00 UTC, which is the instant of Go's zero [Time]; [IsZero] is the
    test the library documents: the instant is that origin. *)
Module time.

Definition Time : Type := Z.

Definition zero : Time := 0.

Definition IsZero (t : Time) : bool := Z.eqb t 0.

End time.

(** A Go [error] is modelled by its message ([err.Error()]); the nil error
    is [None] where an [option error] stands for Go's [error]. *)
Definition error : Type := string.

(** ** The repository package's records

    The type declarations of [repository] are imported by router.go and are
    not part of its file.  Every field router.go names is here; the other
    fields follow the columns of the schema (pay_plans, applications,
    gateway_aat, gateway_settings, notification_settings, loadbalancers,
    stickiness_options, lb_apps).  Go names a field within its struct; here
    the projections of all records share one name space, so
    - a field named like its type carries an underscore: [GatewayAAT_],
      [GatewaySettings_], [NotificationSettings_], [StickyOptions_], and
      [Application.PayPlanType] is [PayPlan_Type];
    - the fields of [AppLimits] that [PayPlan] also has are [LimitsPlanType]
      and [LimitsDailyLimit]; its two pointer fields are prefixed likewise;
    - the fields of [LoadBalancer] that [Application] also has are prefixed
      [LB] ([LBID], [LBName], [LBUserID], ...);
    - the fields of the update requests are prefixed [U] ([UName] is
      [UpdateApplication.Name]), [ULB] and [FDS].
    A Go slice is a list: [nil] and the empty slice are both [[]], as [len],
    [range] and [append] do not tell them apart.  A pointer field that may be
    nil is an [option]. *)
Module repository.

Definition PayPlanType : Type := string.
Definition AppStatus : Type := string.

Record PayPlan : Type := mkPayPlan {
  PlanType : PayPlanType;
  DailyLimit : Z
}.

Record GatewayAAT : Type := mkGatewayAAT {
  Address : string;
  ApplicationPublicKey : string;
  ApplicationSignature : string;
  ClientPublicKey : string;
  PrivateKey : string;
  Version : string
}.

Record GatewaySettings : Type := mkGatewaySettings {
  SecretKey : string;
  SecretKeyRequired : bool;
  WhitelistOrigins : list string;
  WhitelistUserAgents : list string;
  WhitelistContracts : string;
  WhitelistMethods : string;
  WhitelistBlockchains : list string
}.

Record NotificationSettings : Type := mkNotificationSettings {
  SignedUp : bool;
  Quarter : bool;
  Half : bool;
  ThreeQuarters : bool;
  Full : bool
}.

(** [AppLimits]: the eight fields [GetApplicationsLimits] and the two
    composite literals of router.go (lines 191-194, 249-252) name. *)
Record AppLimits : Type := mkAppLimits {
  AppID : string;
  AppName : string;
  AppUserID : string;
  PublicKey : string;
  LimitsPlanType : PayPlanType;
  LimitsDailyLimit : Z;
  LimitsNotificationSettings : option NotificationSettings;
  LimitsFirstDateSurpassed : option time.Time
}.

(** The literal [repository.AppLimits{PlanType: p, DailyLimit: d}]: the
    fields it does not name take their zero value. *)
Definition AppLimitsOf (p : PayPlanType) (d : Z) : AppLimits :=
  {| AppID := ""; AppName := ""; AppUserID := ""; PublicKey := "";
     LimitsPlanType := p; LimitsDailyLimit := d;
     LimitsNotificationSettings := None; LimitsFirstDateSurpassed := None |}.

Record Application : Type := mkApplication {
  ID : string;
  UserID : string;
  Name : string;
  ContactEmail : string;
  Description : string;
  Owner : string;
  URL : string;
  Dummy : bool;
  Status : AppStatus;
  PayPlan_Type : PayPlanType;
  FirstDateSurpassed : time.Time;
  GatewayAAT_ : GatewayAAT;
  GatewaySettings_ : GatewaySettings;
  Limits : AppLimits;
  NotificationSettings_ : NotificationSettings;
  CreatedAt : time.Time;
  UpdatedAt : time.Time
}.

(** Assignments to one field of an [Application] ([app.Name = v], ...). *)
Definition set_Name (v : string) (a : Application) : Application :=
  {| ID := ID a; UserID := UserID a; Name := v;
     ContactEmail := ContactEmail a; Description := Description a;
     Owner := Owner a; URL := URL a; Dummy := Dummy a; Status := Status a;
     PayPlan_Type := PayPlan_Type a;
     FirstDateSurpassed := FirstDateSurpassed a;
     GatewayAAT_ := GatewayAAT_ a; GatewaySettings_ := GatewaySettings_ a;
     Limits := Limits a; NotificationSettings_ := NotificationSettings_ a;
     CreatedAt := CreatedAt a; UpdatedAt := UpdatedAt a |}.

Definition set_Status (v : AppStatus) (a : Application) : Application :=
  {| ID := ID a; UserID := UserID a; Name := Name a;
     ContactEmail := ContactEmail a; Description := Description a;
     Owner := Owner a; URL := URL a; Dummy := Dummy a; Status := v;
     PayPlan_Type := PayPlan_Type a;
     FirstDateSurpassed := FirstDateSurpassed a;
     GatewayAAT_ := GatewayAAT_ a; GatewaySettings_ := GatewaySettings_ a;
     Limits := Limits a; NotificationSettings_ := NotificationSettings_ a;
     CreatedAt := CreatedAt a; UpdatedAt := UpdatedAt a |}.

Definition set_PayPlanType (v : PayPlanType) (a : Application) : Application :=
  {| ID := ID a; UserID := UserID a; Name := Name a;
     ContactEmail := ContactEmail a; Description := Description a;
     Owner := Owner a; URL := URL a; Dummy := Dummy a; Status := Status a;
     PayPlan_Type := v;
     FirstDateSurpassed := FirstDateSurpassed a;
     GatewayAAT_ := GatewayAAT_ a; GatewaySettings_ := GatewaySettings_ a;
     Limits := Limits a; NotificationSettings_ := NotificationSettings_ a;
     CreatedAt := CreatedAt a; UpdatedAt := UpdatedAt a |}.

Definition set_FirstDateSurpassed (v : time.Time) (a : Application) : Application :=
  {| ID := ID a; UserID := UserID a; Name := Name a;
     ContactEmail := ContactEmail a; Description := Description a;
     Owner := Owner a; URL := URL a; Dummy := Dummy a; Status := Status a;
     PayPlan_Type := PayPlan_Type a;
     FirstDateSurpassed := v;
     GatewayAAT_ := GatewayAAT_ a; GatewaySettings_ := GatewaySettings_ a;
     Limits := Limits a; NotificationSettings_ := NotificationSettings_ a;
     CreatedAt := CreatedAt a; UpdatedAt := UpdatedAt a |}.

Definition set_GatewaySettings (v : GatewaySettings) (a : Application) : Application :=
  {| ID := ID a; UserID := UserID a; Name := Name a;
     ContactEmail := ContactEmail a; Description := Description a;
     Owner := Owner a; URL := URL a; Dummy := Dummy a; Status := Status a;
     PayPlan_Type := PayPlan_Type a;
     FirstDateSurpassed := FirstDateSurpassed a;
     GatewayAAT_ := GatewayAAT_ a; GatewaySettings_ := v;
     Limits := Limits a; NotificationSettings_ := NotificationSettings_ a;
     CreatedAt := CreatedAt a; UpdatedAt := UpdatedAt a |}.

Definition set_Limits (v : AppLimits) (a : Application) : Application :=
  {| ID := ID a; UserID := UserID a; Name := Name a;
     ContactEmail := ContactEmail a; Description := Description a;
     Owner := Owner a; URL := URL a; Dummy := Dummy a; Status := Status a;
     PayPlan_Type := PayPlan_Type a;
     FirstDateSurpassed := FirstDateSurpassed a;
     GatewayAAT_ := GatewayAAT_ a; GatewaySettings_ := GatewaySettings_ a;
     Limits := v; NotificationSettings_ := NotificationSettings_ a;
     CreatedAt := CreatedAt a; UpdatedAt := UpdatedAt a |}.

Definition set_NotificationSettings (v : NotificationSettings) (a : Application) : Application :=
  {| ID := ID a; UserID := UserID a; Name := Name a;
     ContactEmail := ContactEmail a; Description := Description a;
     Owner := Owner a; URL := URL a; Dummy := Dummy a; Status := Status a;
     PayPlan_Type := PayPlan_Type a;
     FirstDateSurpassed := FirstDateSurpassed a;
     GatewayAAT_ := GatewayAAT_ a; GatewaySettings_ := GatewaySettings_ a;
     Limits := Limits a; NotificationSettings_ := v;
     CreatedAt := CreatedAt a; UpdatedAt := UpdatedAt a |}.

Record StickyOptions : Type := mkStickyOptions {
  Duration : string;
  StickyOrigins : list string;
  StickyMax : Z;
  Stickiness : bool
}.

(** Go's [*Application] as a load balancer holds it: the pointer to the
    object the mirror indexes under an identifier, or the pointer to an
    object that is not the mirror's (one the Store or the decoder
    allocated), given by that object.  An assignment through a pointer of
    the mirror is seen through every [Cached] pointer to the same
    identifier. *)
Inductive ApplicationPtr : Type :=
  | Cached (id : string)
  | Own (app : Application).

(** [Applications] is Go's slice of [*Application]: a list of pointers,
    [None] for a nil pointer. *)
Record LoadBalancer : Type := mkLoadBalancer {
  LBID : string;
  LBName : string;
  LBUserID : string;
  ApplicationIDs : list string;
  RequestTimeout : Z;
  Gigastake : bool;
  GigastakeRedirect : bool;
  StickyOptions_ : StickyOptions;
  Applications : list (option ApplicationPtr);
  LBCreatedAt : time.Time;
  LBUpdatedAt : time.Time
}.

Definition set_LBName (v : string) (l : LoadBalancer) : LoadBalancer :=
  {| LBID := LBID l; LBName := v; LBUserID := LBUserID l;
     ApplicationIDs := ApplicationIDs l; RequestTimeout := RequestTimeout l;
     Gigastake := Gigastake l; GigastakeRedirect := GigastakeRedirect l;
     StickyOptions_ := StickyOptions_ l; Applications := Applications l;
     LBCreatedAt := LBCreatedAt l; LBUpdatedAt := LBUpdatedAt l |}.

Definition set_LBUserID (v : string) (l : LoadBalancer) : LoadBalancer :=
  {| LBID := LBID l; LBName := LBName l; LBUserID := v;
     ApplicationIDs := ApplicationIDs l; RequestTimeout := RequestTimeout l;
     Gigastake := Gigastake l; GigastakeRedirect := GigastakeRedirect l;
     StickyOptions_ := StickyOptions_ l; Applications := Applications l;
     LBCreatedAt := LBCreatedAt l; LBUpdatedAt := LBUpdatedAt l |}.

Definition set_StickyOptions (v : StickyOptions) (l : LoadBalancer) : LoadBalancer :=
  {| LBID := LBID l; LBName := LBName l; LBUserID := LBUserID l;
     ApplicationIDs := ApplicationIDs l; RequestTimeout := RequestTimeout l;
     Gigastake := Gigastake l; GigastakeRedirect := GigastakeRedirect l;
     StickyOptions_ := v; Applications := Applications l;
     LBCreatedAt := LBCreatedAt l; LBUpdatedAt := LBUpdatedAt l |}.

Definition set_ApplicationIDs (v : list string) (l : LoadBalancer) : LoadBalancer :=
  {| LBID := LBID l; LBName := LBName l; LBUserID := LBUserID l;
     ApplicationIDs := v; RequestTimeout := RequestTimeout l;
     Gigastake := Gigastake l; GigastakeRedirect := GigastakeRedirect l;
     StickyOptions_ := StickyOptions_ l; Applications := Applications l;
     LBCreatedAt := LBCreatedAt l; LBUpdatedAt := LBUpdatedAt l |}.

Definition set_Applications (v : list (option ApplicationPtr)) (l : LoadBalancer)
    : LoadBalancer :=
  {| LBID := LBID l; LBName := LBName l; LBUserID := LBUserID l;
     ApplicationIDs := ApplicationIDs l; RequestTimeout := RequestTimeout l;
     Gigastake := Gigastake l; GigastakeRedirect := GigastakeRedirect l;
     StickyOptions_ := StickyOptions_ l; Applications := v;
     LBCreatedAt := LBCreatedAt l; LBUpdatedAt := LBUpdatedAt l |}.

(** The partial-update requests.  [UpdateApplication] and
    [UpdateLoadBalancer] carry the fields router.go reads from
    [updateInput]. *)
Record UpdateApplication : Type := mkUpdateApplication {
  UName : string;
  UStatus : AppStatus;
  UPayPlanType : PayPlanType;
  UFirstDateSurpassed : time.Time;
  UGatewaySettings : option GatewaySettings;
  UNotificationSettings : option NotificationSettings;
  URemove : bool
}.

Record UpdateLoadBalancer : Type := mkUpdateLoadBalancer {
  ULBName : string;
  UStickyOptions : option StickyOptions;
  ULBRemove : bool
}.

Record UpdateFirstDateSurpassed : Type := mkUpdateFirstDateSurpassed {
  FDSApplicationIDs : list string;
  FDSFirstDateSurpassed : time.Time
}.

End repository.

(** ** The mirror

    Modelled from the spec: the [cache] package ([cache.Cache], its
    population and its lookups) is not among the repository's files at hand;
    router.go only calls it.  Following sections 2 and 4.1 of the
    specification, the mirror holds primary indices by entity identifier
    (applications, load balancers, pay plans by plan type) and two secondary
    indices from an owning user to the identifiers of what that user owns.
    The blockchain index is left out: no handler below reads or writes it.

    The mirror owns one object per identifier, and the pointer a lookup hands
    out designates that object: a handler's assignment through the pointer is
    modelled as an update of the index at that identifier ([assign]), so that
    every later lookup sees it, and so does every reader of a pointer to the
    object that a load balancer holds ([deref]). *)
Module cache.

Import repository.

(** Modelled from the spec: the indices of [cache.Cache], which router.go
    reaches only through the lookups below. *)
Record Cache : Type := mkCache {
  applications : gmap string Application;
  applicationsByUser : gmap string (list string);
  loadBalancers : gmap string LoadBalancer;
  loadBalancersByUser : gmap string (list string);
  payPlans : gmap string PayPlan
}.

(** Modelled from the spec: [get<Entity>(id)] returns the entity or an
    explicit not-found signal (a nil pointer in router.go). *)
Definition GetApplication (c : Cache) (id : string) : option Application :=
  applications c !! id.

(** The pointer [GetApplication] returns, where a handler keeps it: nil, or
    the pointer to the object indexed under [id]. *)
Definition GetApplicationPtr (c : Cache) (id : string) : option ApplicationPtr :=
  (λ _, Cached id) <$> GetApplication c id.

(** The application a pointer designates in the mirror [c]: what a reader
    of the pointer, the JSON encoder for one, finds there. *)
Definition deref (c : Cache) (p : option ApplicationPtr) : option Application :=
  match p with
  | Some (Cached id) => GetApplication c id
  | Some (Own app) => Some app
  | None => None
  end.

(** Modelled from the spec: [get<Entity>(id)] for load balancers. *)
Definition GetLoadBalancer (c : Cache) (id : string) : option LoadBalancer :=
  loadBalancers c !! id.

(** Modelled from the spec: [get<Entity>(id)] for pay plans, keyed by plan
    type. *)
Definition GetPayPlan (c : Cache) (planType : PayPlanType) : option PayPlan :=
  payPlans c !! planType.

(** Modelled from the spec: [list<Entity>ByUser(userID)] returns the sequence
    resolved through the secondary index, the empty sequence when the user
    owns nothing. *)
Definition GetApplicationsByUserID (c : Cache) (userID : string) : list Application :=
  omap (GetApplication c) (default [] (applicationsByUser c !! userID)).

(** Modelled from the spec: [list<Entity>ByUser(userID)] for load
    balancers. *)
Definition GetLoadBalancersByUserID (c : Cache) (userID : string) : list LoadBalancer :=
  omap (GetLoadBalancer c) (default [] (loadBalancersByUser c !! userID)).

(** The materialized member list of a load balancer in the mirror [c]: its
    pointers followed. *)
Definition members (c : Cache) (lb : LoadBalancer) : list (option Application) :=
  map (deref c) (Applications lb).

(** An assignment through the pointer to the application indexed under
    [id]. *)
Definition assignApplication (id : string) (f : Application → Application)
    (c : Cache) : Cache :=
  {| applications := alter f id (applications c);
     applicationsByUser := applicationsByUser c;
     loadBalancers := loadBalancers c;
     loadBalancersByUser := loadBalancersByUser c;
     payPlans := payPlans c |}.

(** An assignment through the pointer to the load balancer indexed under
    [id]. *)
Definition assignLoadBalancer (id : string) (f : LoadBalancer → LoadBalancer)
    (c : Cache) : Cache :=
  {| applications := applications c;
     applicationsByUser := applicationsByUser c;
     loadBalancers := alter f id (loadBalancers c);
     loadBalancersByUser := loadBalancersByUser c;
     payPlans := payPlans c |}.

End cache.

(** ** The Store

    The [Writer] interface of router.go (lines 24-36), restricted to the
    methods the handlers below call.  A method returning a pointer and an
    error returns both components, the pointer nil or not.  The Store is an
    external collaborator: a handler sees of it only what a call returns, so
    a Store is given here by what it answers to each call, and the calls a
    handler makes are recorded in the order they are made.  The Store is
    taken not to write through the pointers it is passed. *)
Module Writer.

Import repository.

Record t : Type := mk {
  WriteLoadBalancer : LoadBalancer → option LoadBalancer * option error;
  UpdateLoadBalancer : string → repository.UpdateLoadBalancer → option error;
  RemoveLoadBalancer : string → option error;
  WriteApplication : Application → option Application * option error;
  UpdateApplication : string → repository.UpdateApplication → option error;
  UpdateFirstDateSurpassed : repository.UpdateFirstDateSurpassed → option error;
  RemoveApplication : string → option error
}.

Inductive Call : Type :=
  | CallWriteLoadBalancer (lb : LoadBalancer)
  | CallUpdateLoadBalancer (id : string) (options : repository.UpdateLoadBalancer)
  | CallRemoveLoadBalancer (id : string)
  | CallWriteApplication (app : Application)
  | CallUpdateApplication (id : string) (options : repository.UpdateApplication)
  | CallUpdateFirstDateSurpassed (u : repository.UpdateFirstDateSurpassed)
  | CallRemoveApplication (id : string).

End Writer.

(** ** The effects of a handler

    A handler runs over the mirror and the log of Store calls.  It ends by
    writing its response ([RespondWithJSON], [RespondWithError] followed by
    [return]) or by a run-time panic (a nil pointer dereference); what it
    assigned through a pointer before that stays assigned.  A payload that
    holds pointers is encoded with the objects they designate in the mirror
    the handler leaves ([cache.members] for a load balancer). *)
Module handler.

Import repository.

Inductive Payload : Type :=
  | JSONError (message : string)
  | JSONApplication (app : option Application)
  | JSONApplications (apps : list (option Application))
  | JSONApplicationList (apps : list Application)
  | JSONLoadBalancer (lb : option LoadBalancer)
  | JSONLoadBalancerList (lbs : list LoadBalancer)
  | JSONPayPlan (plan : PayPlan).

Inductive Outcome : Type :=
  | Responded (code : Z) (body : Payload)
  | Panicked.

Record World : Type := mkWorld {
  mirror : cache.Cache;
  storeCalls : list Writer.Call
}.

Inductive Step (A : Type) : Type :=
  | Continue (a : A)
  | Stop (o : Outcome).

Arguments Continue {A} a.
Arguments Stop {A} o.

Definition M (A : Type) : Type := World → Step A * World.

Definition ret {A : Type} (a : A) : M A := λ w, (Continue a, w).

Definition bind {A B : Type} (m : M A) (k : A → M B) : M B :=
  λ w, match m w with
       | (Continue a, w') => k a w'
       | (Stop o, w') => (Stop o, w')
       end.

#[export] Instance M_ret : MRet M := @ret.
#[export] Instance M_bind : MBind M := λ A B k m, bind m k.

Definition stop {A : Type} (o : Outcome) : M A := λ w, (Stop o, w).

Definition read {A : Type} (f : cache.Cache → A) : M A :=
  λ w, (Continue (f (mirror w)), w).

Definition assign (f : cache.Cache → cache.Cache) : M unit :=
  λ w, (Continue tt, {| mirror := f (mirror w); storeCalls := storeCalls w |}).

Definition call {A : Type} (c : Writer.Call) (answer : A) : M A :=
  λ w, (Continue answer, {| mirror := mirror w; storeCalls := storeCalls w ++ [c] |}).

Definition when (b : bool) (m : M unit) : M unit := if b then m else ret tt.

(** A handler never falls off its end without an outcome: its type is
    [M Empty_set]. *)
Definition run (h : M Empty_set) (c : cache.Cache) : Outcome * World :=
  match h {| mirror := c; storeCalls := [] |} with
  | (Stop o, w) => (o, w)
  | (Continue e, _) => match e with end
  end.

End handler.

(** ** The handlers of router.go

    A handler takes the path variable ([mux.Vars(r)]) and the outcome of
    decoding the request body; [logError] only writes to the logger and is
    left out.  [rt.Writer] is the section's [W].  Two names the handlers use
    come from other packages and are left open: the status constant
    [repository.AwaitingGracePeriod] and [strings.ToUpper]. *)
Module Router.

Import repository handler.

(** The [net/http] status codes the handlers answer with. *)
Definition StatusOK : Z := 200.
Definition StatusBadRequest : Z := 400.
Definition StatusNotFound : Z := 404.
Definition StatusInternalServerError : Z := 500.

(** Lines 17-22, each by its message. *)
Definition errNoPayFound : string := "pay plan not found".
Definition errBalancerNotFound : string := "load balancer not found".
Definition errBlockchainNotFound : string := "blockchain not found".
Definition errApplicationNotFound : string := "applications not found".

(** [jsonresponse.RespondWithError] and [jsonresponse.RespondWithJSON], each
    followed in router.go by the handler's return. *)
Definition RespondWithError {A : Type} (code : Z) (message : string) : M A :=
  stop (Responded code (JSONError message)).

Definition RespondWithJSON {A : Type} (code : Z) (payload : Payload) : M A :=
  stop (Responded code payload).

(** What [decoder.Decode] made of the request body. *)
Inductive Decoded (A : Type) : Type :=
  | DecodeOk (a : A)
  | DecodeErr (err : error).

Arguments DecodeOk {A} a.
Arguments DecodeErr {A} err.

(** [err := decoder.Decode(&v); if err != nil { 400; return }]. *)
Definition Decode {A : Type} (body : Decoded A) : M A :=
  match body with
  | DecodeOk a => mret a
  | DecodeErr err => RespondWithError StatusBadRequest err
  end.

(** [if err != nil { 500 with err.Error(); return }] after a Store call. *)
Definition orInternalServerError (err : option error) : M unit :=
  match err with
  | Some err => RespondWithError StatusInternalServerError err
  | None => mret tt
  end.

(** Reading a field through a pointer: a nil pointer panics. *)
Definition deref {A : Type} (p : option A) : M A :=
  match p with
  | Some a => mret a
  | None => stop Panicked
  end.

(** A pointer to an application of the mirror: the identifier it is indexed
    under. *)
Definition AppPtr : Type := string.

Section handlers.

Variable AwaitingGracePeriod : AppStatus.
Variable ToUpper : string → string.
Variable W : Writer.t.

(** Lines 157-168. *)
Definition GetApplication (id : string) : M Empty_set :=
  app ← read (λ c, cache.GetApplication c id);
  match app with
  | None => RespondWithError StatusNotFound errApplicationNotFound
  | Some _ => RespondWithJSON StatusOK (JSONApplication app)
  end.

(** Lines 170-200.  The Store's record is answered to the caller; the mirror
    is not written. *)
Definition CreateApplication (body : Decoded Application) : M Empty_set :=
  app ← Decode body;
  '(fullApp, err) ← call (Writer.CallWriteApplication app) (Writer.WriteApplication W app);
  orInternalServerError err;;
  fullApp ← deref fullApp;
  fullApp ← (if bool_decide (PayPlan_Type fullApp ≠ "") then
               newPlan ← read (λ c, cache.GetPayPlan c (PayPlan_Type fullApp));
               newPlan ← deref newPlan;
               mret (set_PayPlanType ""
                       (set_Limits (AppLimitsOf (PlanType newPlan) (DailyLimit newPlan))
                          fullApp))
             else mret fullApp);
  RespondWithJSON StatusOK (JSONApplication (Some fullApp)).

(** Lines 202-266. *)
Definition UpdateApplication (id : string)
    (body : Decoded repository.UpdateApplication) : M Empty_set :=
  app ← read (λ c, cache.GetApplication c id);
  match app with
  | None => RespondWithError StatusNotFound errApplicationNotFound
  | Some _ =>
    updateInput ← Decode body;
    (if URemove updateInput then
       err ← call (Writer.CallRemoveApplication id) (Writer.RemoveApplication W id);
       orInternalServerError err;;
       assign (cache.assignApplication id (set_Status AwaitingGracePeriod))
     else
       err ← call (Writer.CallUpdateApplication id updateInput)
                  (Writer.UpdateApplication W id updateInput);
       orInternalServerError err;;
       when (bool_decide (UName updateInput ≠ ""))
         (assign (cache.assignApplication id (set_Name (UName updateInput))));;
       when (bool_decide (UStatus updateInput ≠ ""))
         (assign (cache.assignApplication id (set_Status (UStatus updateInput))));;
       when (bool_decide (UPayPlanType updateInput ≠ ""))
         (newPlan ← read (λ c, cache.GetPayPlan c (UPayPlanType updateInput));
          newPlan ← deref newPlan;
          assign (cache.assignApplication id
                    (set_Limits (AppLimitsOf (PlanType newPlan) (DailyLimit newPlan)))));;
       when (negb (time.IsZero (UFirstDateSurpassed updateInput)))
         (assign (cache.assignApplication id
                    (set_FirstDateSurpassed (UFirstDateSurpassed updateInput))));;
       match UGatewaySettings updateInput with
       | Some settings => assign (cache.assignApplication id (set_GatewaySettings settings))
       | None => mret tt
       end;;
       match UNotificationSettings updateInput with
       | Some settings =>
           assign (cache.assignApplication id (set_NotificationSettings settings))
       | None => mret tt
       end);;
    app ← read (λ c, cache.GetApplication c id);
    RespondWithJSON StatusOK (JSONApplication app)
  end.

(** Lines 289-297: the first loop of [UpdateFirstDateSurpassed]. *)
Fixpoint collectApplications (ids : list string) (appsToUpdate : list AppPtr)
    : M (list AppPtr) :=
  match ids with
  | [] => mret appsToUpdate
  | appID :: ids =>
      app ← read (λ c, cache.GetApplication c appID);
      match app with
      | None => RespondWithError StatusNotFound (appID ++ " not found")
      | Some _ => collectApplications ids (appsToUpdate ++ [appID])%list
      end
  end.

(** Lines 306-308: the second loop of [UpdateFirstDateSurpassed]. *)
Fixpoint assignFirstDateSurpassed (appsToUpdate : list AppPtr) (t : time.Time)
    : M unit :=
  match appsToUpdate with
  | [] => mret tt
  | app :: appsToUpdate =>
      assign (cache.assignApplication app (set_FirstDateSurpassed t));;
      assignFirstDateSurpassed appsToUpdate t
  end.

(** Lines 268-311. *)
Definition UpdateFirstDateSurpassed
    (body : Decoded repository.UpdateFirstDateSurpassed) : M Empty_set :=
  updateInput ← Decode body;
  if decide (length (FDSApplicationIDs updateInput) = 0%nat) then
    RespondWithError StatusBadRequest "no application IDs on input"
  else
    appsToUpdate ← collectApplications (FDSApplicationIDs updateInput) [];
    err ← call (Writer.CallUpdateFirstDateSurpassed updateInput)
               (Writer.UpdateFirstDateSurpassed W updateInput);
    orInternalServerError err;;
    assignFirstDateSurpassed appsToUpdate (FDSFirstDateSurpassed updateInput);;
    apps ← read (λ c, map (cache.GetApplication c) appsToUpdate);
    RespondWithJSON StatusOK (JSONApplications apps).

(** Lines 313-325. *)
Definition GetApplicationByUserID (id : string) : M Empty_set :=
  apps ← read (λ c, cache.GetApplicationsByUserID c id);
  if decide (length apps = 0%nat) then
    RespondWithError StatusNotFound errApplicationNotFound
  else RespondWithJSON StatusOK (JSONApplicationList apps).

(** Lines 327-339. *)
Definition GetLoadBalancerByUserID (id : string) : M Empty_set :=
  lbs ← read (λ c, cache.GetLoadBalancersByUserID c id);
  if decide (length lbs = 0%nat) then
    RespondWithError StatusNotFound errBalancerNotFound
  else RespondWithJSON StatusOK (JSONLoadBalancerList lbs).

(** Lines 410-422. *)
Definition GetLoadBalancer (id : string) : M Empty_set :=
  lb ← read (λ c, cache.GetLoadBalancer c id);
  match lb with
  | None => RespondWithError StatusNotFound errBalancerNotFound
  | Some _ => RespondWithJSON StatusOK (JSONLoadBalancer lb)
  end.

(** Lines 445-447: [fullLB.Applications] after the loop over
    [fullLB.ApplicationIDs], one [append] per identifier. *)
Definition resolveApplications (c : cache.Cache) (fullLB : LoadBalancer)
    : list (option ApplicationPtr) :=
  foldl (λ (applications : list (option ApplicationPtr)) appID,
           (applications ++ [cache.GetApplicationPtr c appID])%list)
        (Applications fullLB) (ApplicationIDs fullLB).

(** Lines 424-452. *)
Definition CreateLoadBalancer (body : Decoded LoadBalancer) : M Empty_set :=
  lb ← Decode body;
  '(fullLB, err) ← call (Writer.CallWriteLoadBalancer lb) (Writer.WriteLoadBalancer W lb);
  orInternalServerError err;;
  fullLB ← deref fullLB;
  applications ← read (λ c, resolveApplications c fullLB);
  RespondWithJSON StatusOK
    (JSONLoadBalancer (Some (set_ApplicationIDs [] (set_Applications applications fullLB)))).

(** Lines 454-502. *)
Definition UpdateLoadBalancer (id : string)
    (body : Decoded repository.UpdateLoadBalancer) : M Empty_set :=
  lb ← read (λ c, cache.GetLoadBalancer c id);
  match lb with
  | None => RespondWithError StatusNotFound errBalancerNotFound
  | Some _ =>
    updateInput ← Decode body;
    (if ULBRemove updateInput then
       err ← call (Writer.CallRemoveLoadBalancer id) (Writer.RemoveLoadBalancer W id);
       orInternalServerError err;;
       assign (cache.assignLoadBalancer id (set_LBUserID ""))
     else
       err ← call (Writer.CallUpdateLoadBalancer id updateInput)
                  (Writer.UpdateLoadBalancer W id updateInput);
       orInternalServerError err;;
       when (bool_decide (ULBName updateInput ≠ ""))
         (assign (cache.assignLoadBalancer id (set_LBName (ULBName updateInput))));;
       match UStickyOptions updateInput with
       | Some options => assign (cache.assignLoadBalancer id (set_StickyOptions options))
       | None => mret tt
       end);;
    lb ← read (λ c, cache.GetLoadBalancer c id);
    RespondWithJSON StatusOK (JSONLoadBalancer lb)
  end.

(** Lines 508-520. *)
Definition GetPayPlan (type : string) : M Empty_set :=
  plan ← read (λ c, cache.GetPayPlan c (ToUpper type));
  match plan with
  | None => RespondWithError StatusNotFound errNoPayFound
  | Some plan => RespondWithJSON StatusOK (JSONPayPlan plan)
  end.

End handlers.

End Router.

(** ** Vocabulary of the statements *)

Import repository handler.

(** The mirror [c] with the application indexed under [id] replaced by [a],
    every other entry and every other index as in [c]. *)
Definition withApplication (id : string) (a : Application) (c : cache.Cache) : cache.Cache :=
  {| cache.applications := <[id := a]> (cache.applications c);
     cache.applicationsByUser := cache.applicationsByUser c;
     cache.loadBalancers := cache.loadBalancers c;
     cache.loadBalancersByUser := cache.loadBalancersByUser c;
     cache.payPlans := cache.payPlans c |}.

(** The mirror [c] with the load balancer indexed under [id] replaced by
    [lb], every other entry and every other index as in [c]. *)
Definition withLoadBalancer (id : string) (lb : LoadBalancer) (c : cache.Cache) : cache.Cache :=
  {| cache.applications := cache.applications c;
     cache.applicationsByUser := cache.applicationsByUser c;
     cache.loadBalancers := <[id := lb]> (cache.loadBalancers c);
     cache.loadBalancersByUser := cache.loadBalancersByUser c;
     cache.payPlans := cache.payPlans c |}.

(** A handler that answered [code] with [body], leaving the mirror [c] and
    having made the Store calls [calls]. *)
Definition answered (code : Z) (body : Payload) (c : cache.Cache)
    (calls : list Writer.Call) : Outcome * World :=
  (Responded code body, {| mirror := c; storeCalls := calls |}).

(** A handler that panicked, leaving the mirror [c] and having made the
    Store calls [calls]. *)
Definition panicked (c : cache.Cache) (calls : list Writer.Call) : Outcome * World :=
  (Panicked, {| mirror := c; storeCalls := calls |}).

(** [if b { a.f = v }] on the object [a]. *)
Definition whenSet {A : Type} (b : bool) (f : A → A) (a : A) : A :=
  if b then f a else a.

(** What the assignments of lines 241-246 make of the object. *)
Definition beforePlan (u : UpdateApplication) (a : Application) : Application :=
  whenSet (bool_decide (UStatus u ≠ "")) (set_Status (UStatus u))
    (whenSet (bool_decide (UName u ≠ "")) (set_Name (UName u)) a).

(** What the assignments of lines 254-262 make of the object. *)
Definition afterPlan (u : UpdateApplication) (a : Application) : Application :=
  let a := whenSet (negb (time.IsZero (UFirstDateSurpassed u)))
             (set_FirstDateSurpassed (UFirstDateSurpassed u)) a in
  let a := match UGatewaySettings u with
           | Some settings => set_GatewaySettings settings a
           | None => a
           end in
  match UNotificationSettings u with
  | Some settings => set_NotificationSettings settings a
  | None => a
  end.

(** What the assignments of lines 493-498 make of the object. *)
Definition afterUpdateLoadBalancer (u : UpdateLoadBalancer) (lb : LoadBalancer)
    : LoadBalancer :=
  let lb := whenSet (bool_decide (ULBName u ≠ "")) (set_LBName (ULBName u)) lb in
  match UStickyOptions u with
  | Some options => set_StickyOptions options lb
  | None => lb
  end.

(** The fields of an application no update request can name. *)
Definition sameFixedFields (a a' : Application) : Prop :=
  ID a' = ID a ∧ UserID a' = UserID a ∧ ContactEmail a' = ContactEmail a ∧
  Description a' = Description a ∧ Owner a' = Owner a ∧ URL a' = URL a ∧
  Dummy a' = Dummy a ∧ PayPlan_Type a' = PayPlan_Type a ∧
  GatewayAAT_ a' = GatewayAAT_ a ∧ CreatedAt a' = CreatedAt a ∧
  UpdatedAt a' = UpdatedAt a.

(** The fields of a load balancer no update request can name, the owner
    apart. *)
Definition sameFixedFieldsLB (l l' : LoadBalancer) : Prop :=
  LBID l' = LBID l ∧ ApplicationIDs l' = ApplicationIDs l ∧
  RequestTimeout l' = RequestTimeout l ∧ Gigastake l' = Gigastake l ∧
  GigastakeRedirect l' = GigastakeRedirect l ∧ Applications l' = Applications l ∧
  LBCreatedAt l' = LBCreatedAt l ∧ LBUpdatedAt l' = LBUpdatedAt l.

(** The update requests in which every field has its zero value. *)
Definition zeroUpdateApplication : UpdateApplication :=
  {| UName := ""; UStatus := ""; UPayPlanType := ""; UFirstDateSurpassed := time.zero;
     UGatewaySettings := None; UNotificationSettings := None; URemove := false |}.

Definition zeroUpdateLoadBalancer : UpdateLoadBalancer :=
  {| ULBName := ""; UStickyOptions := None; ULBRemove := false |}.

(** The mirror after [app.FirstDateSurpassed = t] through each pointer of
    [ptrs] in turn. *)
Definition withFirstDateSurpassed (t : time.Time) (ptrs : list Router.AppPtr)
    (c : cache.Cache) : cache.Cache :=
  foldl (λ c ptr, cache.assignApplication ptr (set_FirstDateSurpassed t) c) c ptrs.

(** ** Sample data

    A mirror with the pay plans the schema inserts, two applications, held
    with their limits assembled and their pay plan type cleared, and one load
    balancer; a Store that accepts every write and one that refuses every
    write; upper-casing of ASCII letters. *)
Module sample.

Definition notifications : NotificationSettings :=
  {| SignedUp := true; Quarter := false; Half := false; ThreeQuarters := true;
     Full := true |}.

Definition settings : GatewaySettings :=
  {| SecretKey := "s3cret"; SecretKeyRequired := true; WhitelistOrigins := ["https://a.example"];
     WhitelistUserAgents := []; WhitelistContracts := ""; WhitelistMethods := "";
     WhitelistBlockchains := ["0021"] |}.

Definition aat : GatewayAAT :=
  {| Address := "addr"; ApplicationPublicKey := "pub"; ApplicationSignature := "sig";
     ClientPublicKey := "cpub"; PrivateKey := "priv"; Version := "0.0.1" |}.

Definition app1 : Application :=
  {| ID := "app1"; UserID := "user1"; Name := "first app"; ContactEmail := "";
     Description := ""; Owner := "owner"; URL := ""; Dummy := false;
     Status := "IN_SERVICE"; PayPlan_Type := ""; FirstDateSurpassed := 0;
     GatewayAAT_ := aat; GatewaySettings_ := settings;
     Limits := AppLimitsOf "FREETIER_V0" 250000;
     NotificationSettings_ := notifications; CreatedAt := 100; UpdatedAt := 100 |}.

Definition app2 : Application :=
  {| ID := "app2"; UserID := "user1"; Name := "second app"; ContactEmail := "";
     Description := ""; Owner := "owner"; URL := ""; Dummy := false;
     Status := "IN_SERVICE"; PayPlan_Type := ""; FirstDateSurpassed := 0;
     GatewayAAT_ := aat; GatewaySettings_ := settings;
     Limits := AppLimitsOf "TEST_PLAN_V0" 100;
     NotificationSettings_ := notifications; CreatedAt := 200; UpdatedAt := 200 |}.

Definition sticky : StickyOptions :=
  {| Duration := "60"; StickyOrigins := ["chrome-extension://"]; StickyMax := 300;
     Stickiness := true |}.

Definition lb1 : LoadBalancer :=
  {| LBID := "lb1"; LBName := "first lb"; LBUserID := "user1";
     ApplicationIDs := []; RequestTimeout := 2000; Gigastake := false;
     GigastakeRedirect := false; StickyOptions_ := sticky;
     Applications := [Some (Cached "app1")]; LBCreatedAt := 100; LBUpdatedAt := 100 |}.

Definition plans : gmap string PayPlan :=
  list_to_map
    [("FREETIER_V0", mkPayPlan "FREETIER_V0" 250000);
     ("PAY_AS_YOU_GO_V0", mkPayPlan "PAY_AS_YOU_GO_V0" 0);
     ("TEST_PLAN_V0", mkPayPlan "TEST_PLAN_V0" 100);
     ("TEST_PLAN_10K", mkPayPlan "TEST_PLAN_10K" 10000);
     ("TEST_PLAN_90K", mkPayPlan "TEST_PLAN_90K" 90000)].

Definition c0 : cache.Cache :=
  {| cache.applications := list_to_map [("app1", app1); ("app2", app2)];
     cache.applicationsByUser := {[ "user1" := ["app1"; "app2"] ]};
     cache.loadBalancers := {[ "lb1" := lb1 ]};
     cache.loadBalancersByUser := {[ "user1" := ["lb1"] ]};
     cache.payPlans := plans |}.

Definition accepting : Writer.t :=
  {| Writer.WriteLoadBalancer := λ lb, (Some lb, None);
     Writer.UpdateLoadBalancer := λ _ _, None;
     Writer.RemoveLoadBalancer := λ _, None;
     Writer.WriteApplication := λ app, (Some app, None);
     Writer.UpdateApplication := λ _ _, None;
     Writer.UpdateFirstDateSurpassed := λ _, None;
     Writer.RemoveApplication := λ _, None |}.

Definition refusing : Writer.t :=
  {| Writer.WriteLoadBalancer := λ _, (None, Some "store unavailable");
     Writer.UpdateLoadBalancer := λ _ _, Some "store unavailable";
     Writer.RemoveLoadBalancer := λ _, Some "store unavailable";
     Writer.WriteApplication := λ _, (None, Some "store unavailable");
     Writer.UpdateApplication := λ _ _, Some "store unavailable";
     Writer.UpdateFirstDateSurpassed := λ _, Some "store unavailable";
     Writer.RemoveApplication := λ _, Some "store unavailable" |}.

(** The status router.go assigns on removal, as the upstream package spells
    it; the theorems hold for any value of the constant. *)
Definition AwaitingGracePeriod : AppStatus := "AWAITING_GRACE_PERIOD".

(** Upper-casing of the ASCII letters, every other byte kept: what
    [strings.ToUpper] does on an ASCII string. *)
Definition upperByte (a : ascii) : ascii :=
  let n := N_of_ascii a in
  if ((97 <=? n) && (n <=? 122))%N then ascii_of_N (n - 32) else a.

Fixpoint upperASCII (s : string) : string :=
  match s with
  | EmptyString => EmptyString
  | String a s => String (upperByte a) (upperASCII s)
  end.

(** An update that renames and names a pay plan the mirror does not hold. *)
Definition renameToUnknownPlan : UpdateApplication :=
  {| UName := "renamed"; UStatus := ""; UPayPlanType := "ENTERPRISE"; UFirstDateSurpassed := 0;
     UGatewaySettings := None; UNotificationSettings := None; URemove := false |}.

(** An update that only names a pay plan the mirror holds. *)
Definition toPlan10K : UpdateApplication :=
  {| UName := ""; UStatus := ""; UPayPlanType := "TEST_PLAN_10K"; UFirstDateSurpassed := 0;
     UGatewaySettings := None; UNotificationSettings := None; URemove := false |}.

(** An update that only renames. *)
Definition rename : UpdateApplication :=
  {| UName := "renamed"; UStatus := ""; UPayPlanType := ""; UFirstDateSurpassed := 0;
     UGatewaySettings := None; UNotificationSettings := None; URemove := false |}.

(** A removal that also carries a name. *)
Definition removeApp : UpdateApplication :=
  {| UName := "ignored"; UStatus := ""; UPayPlanType := ""; UFirstDateSurpassed := 0;
     UGatewaySettings := None; UNotificationSettings := None; URemove := true |}.

Definition renameLB : UpdateLoadBalancer :=
  {| ULBName := "renamed lb"; UStickyOptions := None; ULBRemove := false |}.

Definition removeLB : UpdateLoadBalancer :=
  {| ULBName := "ignored"; UStickyOptions := None; ULBRemove := true |}.

End sample.

(** ** The middleware and the health check

    Lines 98-127.  Of a request the middleware reads the URL path and the
    Authorization header ([r.Header.Get], the empty string when the header is
    absent); [rt.APIKeys] is a Go map to [bool], whose lookup of a missing
    key is [false].  [w.Write] answers an error or nil; the handlers panic on
    an error.  The wrapped handler [h] is any handler, with results in [R]. *)
Module Middleware.

Record Request : Type := mkRequest {
  Path : string;
  Authorization : string
}.

Inductive Served (R : Type) : Type :=
  | Passed (result : R)
  | Written (code : Z) (text : string)
  | WritePanicked (code : Z) (err : error).

Arguments Passed {R} result.
Arguments Written {R} code text.
Arguments WritePanicked {R} code err.

Definition StatusUnauthorized : Z := 401.

(** [w.WriteHeader(code)] then [w.Write(text)], panicking on its error. *)
Definition writeOrPanic {R : Type} (code : Z) (text : string) (writeErr : option error)
    : Served R :=
  match writeErr with
  | Some err => WritePanicked code err
  | None => Written code text
  end.

(** Lines 98-119. *)
Definition AuthorizationHandler {R : Type} (APIKeys : gmap string bool)
    (writeErr : option error) (h : Request → R) (r : Request) : Served R :=
  if bool_decide (Path r = "/") then Passed (h r)
  else if negb (default false (APIKeys !! Authorization r)) then
    writeOrPanic StatusUnauthorized "Unauthorized" writeErr
  else Passed (h r).

(** Lines 121-127. *)
Definition HealthCheck (writeErr : option error) (r : Request) : Served Empty_set :=
  writeOrPanic Router.StatusOK "Pocket HTTP DB is up and running!" writeErr.

End Middleware.

(** ** The limits listing

    Lines 133-155.  The handler reads the mirror and calls nothing else, so
    it is a function of the mirror to its answer. *)
Module Listing.

(** Modelled from the spec: [list<Entity>()] of the [cache] package, which
    is not among the files at hand, for applications: a snapshot sequence of
    all applications indexed, in an order callers cannot rely on. *)
Definition GetApplications (c : cache.Cache) : list Application :=
  (map_to_list (cache.applications c)).*2.

(** Lines 139-149: the body of the loop, on the copy [limits := app.Limits].
    [&app.NotificationSettings] is never nil. *)
Definition limitsOf (app : Application) : AppLimits :=
  let limits := Limits app in
  {| AppID := ID app;
     AppName := Name app;
     AppUserID := UserID app;
     PublicKey := ApplicationPublicKey (GatewayAAT_ app);
     LimitsPlanType := LimitsPlanType limits;
     LimitsDailyLimit := LimitsDailyLimit limits;
     LimitsNotificationSettings := Some (NotificationSettings_ app);
     LimitsFirstDateSurpassed :=
       if negb (time.IsZero (FirstDateSurpassed app)) then Some (FirstDateSurpassed app)
       else LimitsFirstDateSurpassed limits |}.

(** Lines 136-152: [appsLimits] after the loop, one [append] per
    application. *)
Definition collectLimits (apps : list Application) : list AppLimits :=
  foldl (λ (appsLimits : list AppLimits) app, (appsLimits ++ [limitsOf app])%list) [] apps.

(** Lines 133-155: the status code and the payload of the answer. *)
Definition GetApplicationsLimits (c : cache.Cache) : Z * list AppLimits :=
  (Router.StatusOK, collectLimits (GetApplications c)).

End Listing.

(** ** The environment package

    [os.LookupEnv] and [strings.Split] are the section's [LookupEnv] (the
    value, [None] when the variable is not set) and [Split]. *)
Module environment.

Section env.

Variable LookupEnv : string → option string.
Variable Split : string → string → list string.

(** GetString gets the environment var as a string.  [val] is the empty
    string when the variable is not set. *)
Definition GetString (varName defaultValue : string) : string :=
  let val := default "" (LookupEnv varName) in
  if bool_decide (val = "") then defaultValue else val.

(** GetStringMap gets the environment var as a string map. *)
Definition GetStringMap (varName defaultValue separator : string) : gmap string bool :=
  let rawString := GetString varName defaultValue in
  let stringSlice := Split rawString separator in
  foldl (λ (stringMap : gmap string bool) singleString, <[singleString := true]> stringMap)
        ∅ stringSlice.

End env.

End environment.

(** ** More sample data *)
Module fixtures.

(** What [strings.Split] does for a separator that is not empty: the pieces
    between the leftmost occurrences of the separator that do not overlap.
    [skip] counts the bytes of a separator still to pass over, [piece] is
    the piece read so far. *)
Fixpoint splitFrom (sep : string) (skip : nat) (piece : string) (s : string) : list string :=
  match s with
  | EmptyString => [piece]
  | String a rest =>
      match skip with
      | S skip => splitFrom sep skip piece rest
      | O =>
          if String.prefix sep s then piece :: splitFrom sep (String.length sep - 1) "" rest
          else splitFrom sep 0 (piece +:+ String a EmptyString) rest
      end
  end.

Definition split (s sep : string) : list string := splitFrom sep 0 "" s.

(** An environment in which API_KEYS is set and EMPTY is set to the empty
    string. *)
Definition env (varName : string) : option string :=
  if bool_decide (varName = "API_KEYS") then Some "alpha,beta,,alpha"
  else if bool_decide (varName = "EMPTY") then Some ""
  else None.

Definition keys : gmap string bool := <["revoked" := false]> {[ "alpha" := true ]}.

(** A Store that accepts updates and removals, answers a creation with an
    error and a pointer, and a load balancer creation with neither. *)
Definition halfBroken : Writer.t :=
  {| Writer.WriteLoadBalancer := λ _, (None, None);
     Writer.UpdateLoadBalancer := λ _ _, None;
     Writer.RemoveLoadBalancer := λ _, None;
     Writer.WriteApplication := λ app, (Some app, Some "duplicate key");
     Writer.UpdateApplication := λ _ _, None;
     Writer.UpdateFirstDateSurpassed := λ _, None;
     Writer.RemoveApplication := λ _, None |}.

(** An application the sample mirror does not hold. *)
Definition app3 : Application :=
  {| ID := "app3"; UserID := "user2"; Name := "third app"; ContactEmail := "";
     Description := ""; Owner := "owner"; URL := ""; Dummy := false;
     Status := "IN_SERVICE"; PayPlan_Type := "TEST_PLAN_V0"; FirstDateSurpassed := 55;
     GatewayAAT_ := sample.aat; GatewaySettings_ := sample.settings;
     Limits := AppLimitsOf "" 0;
     NotificationSettings_ := sample.notifications; CreatedAt := 300; UpdatedAt := 300 |}.

End fixtures.

(** Unfolds the effects of a handler down to the world it runs over. *)
Ltac unfold_handler :=
  unfold run, mbind, M_bind, bind, mret, M_ret, ret, read, assign, call, stop, when,
    Router.RespondWithError, Router.RespondWithJSON, Router.Decode,
    Router.orInternalServerError, Router.deref in *; simpl in *.

(** ** Assignments through a pointer of the mirror *)

Lemma withApplication_id c id a :
  cache.GetApplication c id = Some a → withApplication id a c = c.
Proof.
  intros H. destruct c as [apps ? ? ? ?].
  unfold withApplication, cache.GetApplication in *. simpl in *.
  f_equal. by apply insert_id.
Qed.

Lemma withApplication_with c id a b :
  withApplication id a (withApplication id b c) = withApplication id a c.
Proof. unfold withApplication. simpl. f_equal. apply insert_insert_eq. Qed.

Lemma assignApplication_with c id a f :
  cache.assignApplication id f (withApplication id a c) = withApplication id (f a) c.
Proof.
  unfold cache.assignApplication, withApplication. simpl. f_equal.
  apply alter_insert_eq.
Qed.

Lemma GetApplication_with c id a :
  cache.GetApplication (withApplication id a c) id = Some a.
Proof. unfold cache.GetApplication, withApplication. simpl. apply lookup_insert_eq. Qed.

Lemma GetApplication_with_ne c id id' a :
  id ≠ id' →
  cache.GetApplication (withApplication id a c) id' = cache.GetApplication c id'.
Proof.
  intros Hne. unfold cache.GetApplication, withApplication. simpl.
  by apply lookup_insert_ne.
Qed.

Lemma GetPayPlan_with c id a t :
  cache.GetPayPlan (withApplication id a c) t = cache.GetPayPlan c t.
Proof. reflexivity. Qed.

Lemma withLoadBalancer_id c id lb :
  cache.GetLoadBalancer c id = Some lb → withLoadBalancer id lb c = c.
Proof.
  intros H. destruct c as [? ? lbs ? ?].
  unfold withLoadBalancer, cache.GetLoadBalancer in *. simpl in *.
  f_equal. by apply insert_id.
Qed.

Lemma withLoadBalancer_with c id a b :
  withLoadBalancer id a (withLoadBalancer id b c) = withLoadBalancer id a c.
Proof. unfold withLoadBalancer. simpl. f_equal. apply insert_insert_eq. Qed.

Lemma assignLoadBalancer_with c id lb f :
  cache.assignLoadBalancer id f (withLoadBalancer id lb c) = withLoadBalancer id (f lb) c.
Proof.
  unfold cache.assignLoadBalancer, withLoadBalancer. simpl. f_equal.
  apply alter_insert_eq.
Qed.

Lemma GetLoadBalancer_with c id lb :
  cache.GetLoadBalancer (withLoadBalancer id lb c) id = Some lb.
Proof. unfold cache.GetLoadBalancer, withLoadBalancer. simpl. apply lookup_insert_eq. Qed.

(** ** Running a handler *)

(** [UpdateApplication] on an application the mirror holds, path by path. *)
Lemma UpdateApplication_run AGP W c id app u :
  cache.GetApplication c id = Some app →
  run (Router.UpdateApplication AGP W id (Router.DecodeOk u)) c =
    if URemove u then
      match Writer.RemoveApplication W id with
      | Some err =>
          answered Router.StatusInternalServerError (JSONError err) c
            [Writer.CallRemoveApplication id]
      | None =>
          answered Router.StatusOK (JSONApplication (Some (set_Status AGP app)))
            (withApplication id (set_Status AGP app) c) [Writer.CallRemoveApplication id]
      end
    else
      match Writer.UpdateApplication W id u with
      | Some err =>
          answered Router.StatusInternalServerError (JSONError err) c
            [Writer.CallUpdateApplication id u]
      | None =>
          if bool_decide (UPayPlanType u ≠ "") then
            match cache.GetPayPlan c (UPayPlanType u) with
            | Some newPlan =>
                let app' := afterPlan u
                              (set_Limits (AppLimitsOf (PlanType newPlan) (DailyLimit newPlan))
                                 (beforePlan u app)) in
                answered Router.StatusOK (JSONApplication (Some app'))
                  (withApplication id app' c) [Writer.CallUpdateApplication id u]
            | None =>
                panicked (withApplication id (beforePlan u app) c)
                  [Writer.CallUpdateApplication id u]
            end
          else
            let app' := afterPlan u (beforePlan u app) in
            answered Router.StatusOK (JSONApplication (Some app'))
              (withApplication id app' c) [Writer.CallUpdateApplication id u]
      end.
Proof.
  intros Hget.
  unfold Router.UpdateApplication, answered, panicked, afterPlan, beforePlan, whenSet.
  unfold_handler. rewrite Hget.
  rewrite <- (withApplication_id c id app Hget). clear Hget.
  destruct (URemove u); simpl.
  - destruct (Writer.RemoveApplication W id); simpl; [done|].
    by rewrite !assignApplication_with, !GetApplication_with, !withApplication_with.
  - destruct (Writer.UpdateApplication W id u); simpl; [done|].
    destruct (bool_decide (UName u ≠ "")), (bool_decide (UStatus u ≠ "")),
      (bool_decide (UPayPlanType u ≠ "")); simpl;
      rewrite ?assignApplication_with, ?GetPayPlan_with;
      try destruct (cache.GetPayPlan c (UPayPlanType u)); simpl;
      destruct (time.IsZero (UFirstDateSurpassed u)),
        (UGatewaySettings u), (UNotificationSettings u); simpl;
      by rewrite ?assignApplication_with, ?GetApplication_with, ?withApplication_with.
Qed.

(** [UpdateApplication] on an identifier the mirror does not hold. *)
Lemma UpdateApplication_run_absent AGP W c id body :
  cache.GetApplication c id = None →
  run (Router.UpdateApplication AGP W id body) c =
    answered Router.StatusNotFound (JSONError Router.errApplicationNotFound) c [].
Proof.
  intros Hget. unfold Router.UpdateApplication, answered. unfold_handler.
  rewrite Hget. by destruct c.
Qed.

(** [UpdateLoadBalancer] on a load balancer the mirror holds, path by path. *)
Lemma UpdateLoadBalancer_run W c id lb u :
  cache.GetLoadBalancer c id = Some lb →
  run (Router.UpdateLoadBalancer W id (Router.DecodeOk u)) c =
    if ULBRemove u then
      match Writer.RemoveLoadBalancer W id with
      | Some err =>
          answered Router.StatusInternalServerError (JSONError err) c
            [Writer.CallRemoveLoadBalancer id]
      | None =>
          answered Router.StatusOK (JSONLoadBalancer (Some (set_LBUserID "" lb)))
            (withLoadBalancer id (set_LBUserID "" lb) c) [Writer.CallRemoveLoadBalancer id]
      end
    else
      match Writer.UpdateLoadBalancer W id u with
      | Some err =>
          answered Router.StatusInternalServerError (JSONError err) c
            [Writer.CallUpdateLoadBalancer id u]
      | None =>
          let lb' := afterUpdateLoadBalancer u lb in
          answered Router.StatusOK (JSONLoadBalancer (Some lb'))
            (withLoadBalancer id lb' c) [Writer.CallUpdateLoadBalancer id u]
      end.
Proof.
  intros Hget.
  unfold Router.UpdateLoadBalancer, answered, afterUpdateLoadBalancer, whenSet.
  unfold_handler. rewrite Hget.
  rewrite <- (withLoadBalancer_id c id lb Hget). clear Hget.
  destruct (ULBRemove u); simpl.
  - destruct (Writer.RemoveLoadBalancer W id); simpl; [done|].
    by rewrite !assignLoadBalancer_with, !GetLoadBalancer_with, !withLoadBalancer_with.
  - destruct (Writer.UpdateLoadBalancer W id u); simpl; [done|].
    destruct (bool_decide (ULBName u ≠ "")), (UStickyOptions u); simpl;
      by rewrite ?assignLoadBalancer_with, ?GetLoadBalancer_with, ?withLoadBalancer_with.
Qed.

(** [UpdateLoadBalancer] on an identifier the mirror does not hold. *)
Lemma UpdateLoadBalancer_run_absent W c id body :
  cache.GetLoadBalancer c id = None →
  run (Router.UpdateLoadBalancer W id body) c =
    answered Router.StatusNotFound (JSONError Router.errBalancerNotFound) c [].
Proof.
  intros Hget. unfold Router.UpdateLoadBalancer, answered. unfold_handler.
  rewrite Hget. by destruct c.
Qed.

(** ** The partial-update merge *)

(** C1.  An update with [remove = false] that the Store accepted, on an
    entity the mirror holds: the handler answers 200 with the merged entity
    and installs it under the same identifier, nothing else of the mirror
    changing.  Each updatable field of the merged entity is the incoming
    value when that value is not the zero value of its type (empty string,
    zero time, nil pointer) and the previous value when it is; gateway
    settings, notification settings and sticky options are replaced as a
    whole.  An incoming pay plan type replaces the limits by those of the
    plan; the request's plan must be one the mirror holds (the other case is
    the subject of C2).  The fields no request names keep their value, so a
    request with one non-zero field changes that field alone. *)
Theorem partial_update_merges_by_zero_value AGP W c :
  (∀ id app u,
     cache.GetApplication c id = Some app →
     URemove u = false →
     Writer.UpdateApplication W id u = None →
     UPayPlanType u = "" ∨ is_Some (cache.GetPayPlan c (UPayPlanType u)) →
     ∃ app',
       run (Router.UpdateApplication AGP W id (Router.DecodeOk u)) c =
         answered Router.StatusOK (JSONApplication (Some app'))
           (withApplication id app' c) [Writer.CallUpdateApplication id u] ∧
       (UName u ≠ "" → Name app' = UName u) ∧
       (UName u = "" → Name app' = Name app) ∧
       (UStatus u ≠ "" → Status app' = UStatus u) ∧
       (UStatus u = "" → Status app' = Status app) ∧
       (∀ plan, UPayPlanType u ≠ "" →
          cache.GetPayPlan c (UPayPlanType u) = Some plan →
          Limits app' = AppLimitsOf (PlanType plan) (DailyLimit plan)) ∧
       (UPayPlanType u = "" → Limits app' = Limits app) ∧
       (UFirstDateSurpassed u ≠ time.zero →
          FirstDateSurpassed app' = UFirstDateSurpassed u) ∧
       (UFirstDateSurpassed u = time.zero →
          FirstDateSurpassed app' = FirstDateSurpassed app) ∧
       (∀ s, UGatewaySettings u = Some s → GatewaySettings_ app' = s) ∧
       (UGatewaySettings u = None → GatewaySettings_ app' = GatewaySettings_ app) ∧
       (∀ s, UNotificationSettings u = Some s → NotificationSettings_ app' = s) ∧
       (UNotificationSettings u = None →
          NotificationSettings_ app' = NotificationSettings_ app) ∧
       sameFixedFields app app' ∧
       (UStatus u = "" → UPayPlanType u = "" → UFirstDateSurpassed u = time.zero →
        UGatewaySettings u = None → UNotificationSettings u = None →
        UName u ≠ "" → app' = set_Name (UName u) app) ∧
       (UName u = "" → UPayPlanType u = "" → UFirstDateSurpassed u = time.zero →
        UGatewaySettings u = None → UNotificationSettings u = None →
        UStatus u ≠ "" → app' = set_Status (UStatus u) app) ∧
       (∀ plan, UName u = "" → UStatus u = "" → UFirstDateSurpassed u = time.zero →
        UGatewaySettings u = None → UNotificationSettings u = None →
        UPayPlanType u ≠ "" → cache.GetPayPlan c (UPayPlanType u) = Some plan →
        app' = set_Limits (AppLimitsOf (PlanType plan) (DailyLimit plan)) app) ∧
       (UName u = "" → UStatus u = "" → UPayPlanType u = "" →
        UGatewaySettings u = None → UNotificationSettings u = None →
        UFirstDateSurpassed u ≠ time.zero →
        app' = set_FirstDateSurpassed (UFirstDateSurpassed u) app) ∧
       (∀ s, UName u = "" → UStatus u = "" → UPayPlanType u = "" →
        UFirstDateSurpassed u = time.zero → UNotificationSettings u = None →
        UGatewaySettings u = Some s → app' = set_GatewaySettings s app) ∧
       (∀ s, UName u = "" → UStatus u = "" → UPayPlanType u = "" →
        UFirstDateSurpassed u = time.zero → UGatewaySettings u = None →
        UNotificationSettings u = Some s → app' = set_NotificationSettings s app)) ∧
  (∀ id lb u,
     cache.GetLoadBalancer c id = Some lb →
     ULBRemove u = false →
     Writer.UpdateLoadBalancer W id u = None →
     ∃ lb',
       run (Router.UpdateLoadBalancer W id (Router.DecodeOk u)) c =
         answered Router.StatusOK (JSONLoadBalancer (Some lb'))
           (withLoadBalancer id lb' c) [Writer.CallUpdateLoadBalancer id u] ∧
       (ULBName u ≠ "" → LBName lb' = ULBName u) ∧
       (ULBName u = "" → LBName lb' = LBName lb) ∧
       (∀ o, UStickyOptions u = Some o → StickyOptions_ lb' = o) ∧
       (UStickyOptions u = None → StickyOptions_ lb' = StickyOptions_ lb) ∧
       LBUserID lb' = LBUserID lb ∧
       sameFixedFieldsLB lb lb' ∧
       (UStickyOptions u = None → ULBName u ≠ "" → lb' = set_LBName (ULBName u) lb) ∧
       (∀ o, ULBName u = "" → UStickyOptions u = Some o → lb' = set_StickyOptions o lb)).
Proof.
  split.
  - intros id app u Hget Hrem Hw Hplan.
    rewrite (UpdateApplication_run _ _ _ _ _ _ Hget), Hrem, Hw.
    unfold afterPlan, beforePlan, whenSet, sameFixedFields, time.IsZero, time.zero.
    case_bool_decide as Hpp.
    + destruct Hplan as [Hempty | [plan Hfound]]; [done|]. rewrite Hfound.
      eexists; split; [reflexivity|].
      destruct app; simpl.
      destruct (Z.eqb_spec (UFirstDateSurpassed u) 0);
        destruct (UGatewaySettings u), (UNotificationSettings u);
        repeat case_bool_decide;
        simpl; repeat split; intros; simplify_eq; try done.
    + eexists; split; [reflexivity|].
      destruct app; simpl.
      destruct (Z.eqb_spec (UFirstDateSurpassed u) 0);
        destruct (UGatewaySettings u), (UNotificationSettings u);
        repeat case_bool_decide;
        simpl; repeat split; intros; simplify_eq; try done.
  - intros id lb u Hget Hrem Hw.
    rewrite (UpdateLoadBalancer_run _ _ _ _ _ Hget), Hrem, Hw.
    eexists; split; [reflexivity|].
    unfold afterUpdateLoadBalancer, whenSet, sameFixedFieldsLB.
    destruct lb; simpl.
    destruct (UStickyOptions u); repeat case_bool_decide;
      simpl; repeat split; intros; simplify_eq; try done.
Qed.

(** A request with one non-zero field, on the sample mirror: the pay plan
    type alone, and a load balancer's name alone. *)
Lemma partial_update_merges_by_zero_value_witness :
  run (Router.UpdateApplication sample.AwaitingGracePeriod sample.accepting "app1"
         (Router.DecodeOk sample.toPlan10K)) sample.c0 =
    answered Router.StatusOK
      (JSONApplication (Some (set_Limits (AppLimitsOf "TEST_PLAN_10K" 10000) sample.app1)))
      (withApplication "app1" (set_Limits (AppLimitsOf "TEST_PLAN_10K" 10000) sample.app1)
         sample.c0)
      [Writer.CallUpdateApplication "app1" sample.toPlan10K] ∧
  run (Router.UpdateLoadBalancer sample.accepting "lb1" (Router.DecodeOk sample.renameLB))
      sample.c0 =
    answered Router.StatusOK
      (JSONLoadBalancer (Some (set_LBName "renamed lb" sample.lb1)))
      (withLoadBalancer "lb1" (set_LBName "renamed lb" sample.lb1) sample.c0)
      [Writer.CallUpdateLoadBalancer "lb1" sample.renameLB].
Proof.
  destruct (partial_update_merges_by_zero_value sample.AwaitingGracePeriod
              sample.accepting sample.c0) as [Happ Hlb].
  split.
  - destruct (Happ "app1" sample.app1 sample.toPlan10K)
      as (app' & Hrun & _ & _ & _ & _ & _ & _ & _ & _ & _ & _ & _ & _ & _ & _ & _ & Hone & _).
    + vm_compute; reflexivity.
    + reflexivity.
    + reflexivity.
    + right. exists (mkPayPlan "TEST_PLAN_10K" 10000). vm_compute; reflexivity.
    + rewrite Hrun.
      rewrite (Hone (mkPayPlan "TEST_PLAN_10K" 10000)); try reflexivity; discriminate.
  - destruct (Hlb "lb1" sample.lb1 sample.renameLB)
      as (lb' & Hrun & _ & _ & _ & _ & _ & _ & Hone & _).
    + vm_compute; reflexivity.
    + reflexivity.
    + reflexivity.
    + rewrite Hrun. rewrite Hone; try reflexivity; discriminate.
Defined.

(** ** Pay plans: limits and the unknown plan *)

(** [CreateApplication], path by path.  The mirror is read, never written. *)
Lemma CreateApplication_run W c app :
  run (Router.CreateApplication W (Router.DecodeOk app)) c =
    match Writer.WriteApplication W app with
    | (_, Some err) =>
        answered Router.StatusInternalServerError (JSONError err) c
          [Writer.CallWriteApplication app]
    | (None, None) => panicked c [Writer.CallWriteApplication app]
    | (Some fullApp, None) =>
        if bool_decide (PayPlan_Type fullApp ≠ "") then
          match cache.GetPayPlan c (PayPlan_Type fullApp) with
          | Some newPlan =>
              answered Router.StatusOK
                (JSONApplication
                   (Some (set_PayPlanType ""
                            (set_Limits (AppLimitsOf (PlanType newPlan) (DailyLimit newPlan))
                               fullApp))))
                c [Writer.CallWriteApplication app]
          | None => panicked c [Writer.CallWriteApplication app]
          end
        else
          answered Router.StatusOK (JSONApplication (Some fullApp)) c
            [Writer.CallWriteApplication app]
    end.
Proof.
  unfold Router.CreateApplication, answered, panicked. unfold_handler.
  destruct (Writer.WriteApplication W app) as [[fullApp|] [err|]]; simpl; try done.
  destruct (bool_decide (PayPlan_Type fullApp ≠ "")); simpl; [|done].
  by destruct (cache.GetPayPlan c (PayPlan_Type fullApp)).
Qed.

(** An accepted update that names a pay plan the mirror does not hold ends
    in a panic, after the name and status assignments. *)
Lemma UpdateApplication_unknown_plan AGP W c id app u :
  cache.GetApplication c id = Some app →
  URemove u = false →
  Writer.UpdateApplication W id u = None →
  UPayPlanType u ≠ "" →
  cache.GetPayPlan c (UPayPlanType u) = None →
  run (Router.UpdateApplication AGP W id (Router.DecodeOk u)) c =
    panicked (withApplication id (beforePlan u app) c) [Writer.CallUpdateApplication id u].
Proof.
  intros Hget Hrem Hw Hne Hplan.
  rewrite (UpdateApplication_run _ _ _ _ _ _ Hget), Hrem, Hw, Hplan.
  by rewrite bool_decide_eq_true_2.
Qed.

(** C2.  On the sample mirror, which holds no plan ENTERPRISE, the update
    [{name: "renamed", payPlanType: "ENTERPRISE"}] of app1, accepted by the
    Store: the handler panics instead of answering an error, and app1 is
    left renamed in the mirror. *)
Theorem unknown_plan_update_panics :
  cache.GetPayPlan sample.c0 "ENTERPRISE" = None ∧
  run (Router.UpdateApplication sample.AwaitingGracePeriod sample.accepting "app1"
         (Router.DecodeOk sample.renameToUnknownPlan)) sample.c0 =
    panicked (withApplication "app1" (set_Name "renamed" sample.app1) sample.c0)
      [Writer.CallUpdateApplication "app1" sample.renameToUnknownPlan] ∧
  cache.GetApplication
    (withApplication "app1" (set_Name "renamed" sample.app1) sample.c0) "app1"
    ≠ cache.GetApplication sample.c0 "app1".
Proof.
  split; [vm_compute; reflexivity|]. split.
  - rewrite (UpdateApplication_unknown_plan _ _ _ _ sample.app1);
      try reflexivity; try discriminate; vm_compute; reflexivity.
  - rewrite GetApplication_with. vm_compute. discriminate.
Qed.



(** ** Soft removal, Store failures, the update that changes nothing *)

(** C5.  A request with the remove flag, on an entity the mirror holds and
    with the Store's removal accepted: whatever else the request carries,
    the Store is asked for the removal only; an application's status becomes
    [AwaitingGracePeriod] and a load balancer's owner becomes empty, every
    other field keeping its value; the entity stays indexed under its
    identifier, and a get by that identifier answers it. *)
Theorem remove_is_a_state_transition AGP W c :
  (∀ id app u,
     cache.GetApplication c id = Some app →
     URemove u = true →
     Writer.RemoveApplication W id = None →
     let app' := set_Status AGP app in
       run (Router.UpdateApplication AGP W id (Router.DecodeOk u)) c =
         answered Router.StatusOK (JSONApplication (Some app'))
           (withApplication id app' c) [Writer.CallRemoveApplication id] ∧
       Status app' = AGP ∧
       Name app' = Name app ∧ Limits app' = Limits app ∧
       FirstDateSurpassed app' = FirstDateSurpassed app ∧
       GatewaySettings_ app' = GatewaySettings_ app ∧
       NotificationSettings_ app' = NotificationSettings_ app ∧
       sameFixedFields app app' ∧
       cache.GetApplication (withApplication id app' c) id = Some app' ∧
       run (Router.GetApplication id) (withApplication id app' c) =
         answered Router.StatusOK (JSONApplication (Some app'))
           (withApplication id app' c) []) ∧
  (∀ id lb u,
     cache.GetLoadBalancer c id = Some lb →
     ULBRemove u = true →
     Writer.RemoveLoadBalancer W id = None →
     let lb' := set_LBUserID "" lb in
       run (Router.UpdateLoadBalancer W id (Router.DecodeOk u)) c =
         answered Router.StatusOK (JSONLoadBalancer (Some lb'))
           (withLoadBalancer id lb' c) [Writer.CallRemoveLoadBalancer id] ∧
       LBUserID lb' = "" ∧
       LBName lb' = LBName lb ∧ StickyOptions_ lb' = StickyOptions_ lb ∧
       sameFixedFieldsLB lb lb' ∧
       cache.GetLoadBalancer (withLoadBalancer id lb' c) id = Some lb' ∧
       run (Router.GetLoadBalancer id) (withLoadBalancer id lb' c) =
         answered Router.StatusOK (JSONLoadBalancer (Some lb'))
           (withLoadBalancer id lb' c) []).
Proof.
  split.
  - intros id app u Hget Hrem Hw.
    rewrite (UpdateApplication_run _ _ _ _ _ _ Hget), Hrem, Hw.
    unfold sameFixedFields. repeat split.
    + apply GetApplication_with.
    + unfold Router.GetApplication, answered. unfold_handler.
      by rewrite GetApplication_with.
  - intros id lb u Hget Hrem Hw.
    rewrite (UpdateLoadBalancer_run _ _ _ _ _ Hget), Hrem, Hw.
    unfold sameFixedFieldsLB. repeat split.
    + apply GetLoadBalancer_with.
    + unfold Router.GetLoadBalancer, answered. unfold_handler.
      by rewrite GetLoadBalancer_with.
Qed.

(** The removal of app1 and of lb1 on the sample mirror, each request also
    carrying a name. *)
Lemma remove_is_a_state_transition_witness :
  run (Router.UpdateApplication sample.AwaitingGracePeriod sample.accepting "app1"
         (Router.DecodeOk sample.removeApp)) sample.c0 =
    answered Router.StatusOK
      (JSONApplication (Some (set_Status "AWAITING_GRACE_PERIOD" sample.app1)))
      (withApplication "app1" (set_Status "AWAITING_GRACE_PERIOD" sample.app1) sample.c0)
      [Writer.CallRemoveApplication "app1"] ∧
  run (Router.UpdateLoadBalancer sample.accepting "lb1" (Router.DecodeOk sample.removeLB))
      sample.c0 =
    answered Router.StatusOK (JSONLoadBalancer (Some (set_LBUserID "" sample.lb1)))
      (withLoadBalancer "lb1" (set_LBUserID "" sample.lb1) sample.c0)
      [Writer.CallRemoveLoadBalancer "lb1"].
Proof.
  destruct (remove_is_a_state_transition sample.AwaitingGracePeriod sample.accepting
              sample.c0) as [Happ Hlb].
  split.
  - apply (Happ "app1" sample.app1 sample.removeApp);
      [vm_compute; reflexivity | reflexivity..].
  - apply (Hlb "lb1" sample.lb1 sample.removeLB);
      [vm_compute; reflexivity | reflexivity..].
Defined.

(** C6.  An update or a removal of an application or of a load balancer the
    mirror holds, refused by the Store with error [err]: the handler answers
    500 with the error's message, and the mirror is the one it started
    from. *)
Theorem store_error_leaves_mirror AGP W c :
  (∀ id app u err,
     cache.GetApplication c id = Some app →
     URemove u = false →
     Writer.UpdateApplication W id u = Some err →
     run (Router.UpdateApplication AGP W id (Router.DecodeOk u)) c =
       answered Router.StatusInternalServerError (JSONError err) c
         [Writer.CallUpdateApplication id u]) ∧
  (∀ id app u err,
     cache.GetApplication c id = Some app →
     URemove u = true →
     Writer.RemoveApplication W id = Some err →
     run (Router.UpdateApplication AGP W id (Router.DecodeOk u)) c =
       answered Router.StatusInternalServerError (JSONError err) c
         [Writer.CallRemoveApplication id]) ∧
  (∀ id lb u err,
     cache.GetLoadBalancer c id = Some lb →
     ULBRemove u = false →
     Writer.UpdateLoadBalancer W id u = Some err →
     run (Router.UpdateLoadBalancer W id (Router.DecodeOk u)) c =
       answered Router.StatusInternalServerError (JSONError err) c
         [Writer.CallUpdateLoadBalancer id u]) ∧
  (∀ id lb u err,
     cache.GetLoadBalancer c id = Some lb →
     ULBRemove u = true →
     Writer.RemoveLoadBalancer W id = Some err →
     run (Router.UpdateLoadBalancer W id (Router.DecodeOk u)) c =
       answered Router.StatusInternalServerError (JSONError err) c
         [Writer.CallRemoveLoadBalancer id]).
Proof.
  repeat split.
  - intros id app u err Hget Hrem Hw.
    by rewrite (UpdateApplication_run _ _ _ _ _ _ Hget), Hrem, Hw.
  - intros id app u err Hget Hrem Hw.
    by rewrite (UpdateApplication_run _ _ _ _ _ _ Hget), Hrem, Hw.
  - intros id lb u err Hget Hrem Hw.
    by rewrite (UpdateLoadBalancer_run _ _ _ _ _ Hget), Hrem, Hw.
  - intros id lb u err Hget Hrem Hw.
    by rewrite (UpdateLoadBalancer_run _ _ _ _ _ Hget), Hrem, Hw.
Qed.

(** The four requests on the sample mirror, with the Store that refuses
    every write. *)
Lemma store_error_leaves_mirror_witness :
  run (Router.UpdateApplication sample.AwaitingGracePeriod sample.refusing "app1"
         (Router.DecodeOk sample.rename)) sample.c0 =
    answered 500 (JSONError "store unavailable") sample.c0
      [Writer.CallUpdateApplication "app1" sample.rename] ∧
  run (Router.UpdateApplication sample.AwaitingGracePeriod sample.refusing "app1"
         (Router.DecodeOk sample.removeApp)) sample.c0 =
    answered 500 (JSONError "store unavailable") sample.c0
      [Writer.CallRemoveApplication "app1"] ∧
  run (Router.UpdateLoadBalancer sample.refusing "lb1" (Router.DecodeOk sample.renameLB))
      sample.c0 =
    answered 500 (JSONError "store unavailable") sample.c0
      [Writer.CallUpdateLoadBalancer "lb1" sample.renameLB] ∧
  run (Router.UpdateLoadBalancer sample.refusing "lb1" (Router.DecodeOk sample.removeLB))
      sample.c0 =
    answered 500 (JSONError "store unavailable") sample.c0
      [Writer.CallRemoveLoadBalancer "lb1"].
Proof.
  destruct (store_error_leaves_mirror sample.AwaitingGracePeriod sample.refusing sample.c0)
    as (Hupdate & Hremove & HupdateLB & HremoveLB).
  split; [|split; [|split]].
  - apply (Hupdate "app1" sample.app1); [vm_compute; reflexivity | reflexivity..].
  - apply (Hremove "app1" sample.app1); [vm_compute; reflexivity | reflexivity..].
  - apply (HupdateLB "lb1" sample.lb1); [vm_compute; reflexivity | reflexivity..].
  - apply (HremoveLB "lb1" sample.lb1); [vm_compute; reflexivity | reflexivity..].
Defined.

(** C7.  The update whose every field has its zero value, with
    [remove = false]: whatever the Store answers and whether or not the
    mirror holds the identifier, the mirror after one application and after
    two is the mirror before, and so is the entity under the identifier. *)
Theorem zero_update_changes_nothing AGP W c id :
  let once :=
    mirror (run (Router.UpdateApplication AGP W id
                   (Router.DecodeOk zeroUpdateApplication)) c).2 in
  let twice :=
    mirror (run (Router.UpdateApplication AGP W id
                   (Router.DecodeOk zeroUpdateApplication)) once).2 in
  let onceLB :=
    mirror (run (Router.UpdateLoadBalancer W id
                   (Router.DecodeOk zeroUpdateLoadBalancer)) c).2 in
  let twiceLB :=
    mirror (run (Router.UpdateLoadBalancer W id
                   (Router.DecodeOk zeroUpdateLoadBalancer)) onceLB).2 in
  once = c ∧ twice = c ∧
  cache.GetApplication once id = cache.GetApplication c id ∧
  cache.GetApplication twice id = cache.GetApplication c id ∧
  onceLB = c ∧ twiceLB = c ∧
  cache.GetLoadBalancer onceLB id = cache.GetLoadBalancer c id ∧
  cache.GetLoadBalancer twiceLB id = cache.GetLoadBalancer c id.
Proof.
  assert (mirror (run (Router.UpdateApplication AGP W id
                         (Router.DecodeOk zeroUpdateApplication)) c).2 = c) as Happ.
  { destruct (cache.GetApplication c id) as [app|] eqn:Hget.
    - rewrite (UpdateApplication_run _ _ _ _ _ _ Hget). simpl.
      destruct (Writer.UpdateApplication W id zeroUpdateApplication); simpl; [done|].
      by apply withApplication_id.
    - by rewrite (UpdateApplication_run_absent _ _ _ _ _ Hget). }
  assert (mirror (run (Router.UpdateLoadBalancer W id
                         (Router.DecodeOk zeroUpdateLoadBalancer)) c).2 = c) as Hlb.
  { destruct (cache.GetLoadBalancer c id) as [lb|] eqn:Hget.
    - rewrite (UpdateLoadBalancer_run _ _ _ _ _ Hget). simpl.
      destruct (Writer.UpdateLoadBalancer W id zeroUpdateLoadBalancer); simpl; [done|].
      by apply withLoadBalancer_id.
    - by rewrite (UpdateLoadBalancer_run_absent _ _ _ _ Hget). }
  simpl. rewrite !Happ, !Hlb. done.
Qed.

(** ** Listing by user *)

(** C3 as stated fails on the sample mirror: the user "nonexistent-user"
    owns nothing, the mirror's lookups give the empty sequence, and both
    handlers answer 404 with a not-found error, not the empty sequence. *)
Lemma list_by_stranger_is_not_found :
  cache.GetApplicationsByUserID sample.c0 "nonexistent-user" = [] ∧
  cache.GetLoadBalancersByUserID sample.c0 "nonexistent-user" = [] ∧
  run (Router.GetApplicationByUserID "nonexistent-user") sample.c0 =
    answered 404 (JSONError "applications not found") sample.c0 [] ∧
  run (Router.GetLoadBalancerByUserID "nonexistent-user") sample.c0 =
    answered 404 (JSONError "load balancer not found") sample.c0 [] ∧
  (run (Router.GetApplicationByUserID "nonexistent-user") sample.c0).1
    ≠ Responded Router.StatusOK (JSONApplicationList []) ∧
  (run (Router.GetLoadBalancerByUserID "nonexistent-user") sample.c0).1
    ≠ Responded Router.StatusOK (JSONLoadBalancerList []).
Proof. vm_compute. repeat split; discriminate. Qed.

Lemma omap_nil_iff {A B : Type} (f : A → option B) (l : list A) :
  omap f l = [] ↔ ∀ x, x ∈ l → f x = None.
Proof.
  induction l as [|x l IH].
  - split; [|done]. intros _ y Hy. by apply elem_of_nil in Hy.
  - change (omap f (x :: l)) with (match f x with Some y => y :: omap f l | None => omap f l end).
    destruct (f x) as [b|] eqn:Hfx.
    + split; [done|]. intros Hall. specialize (Hall x). rewrite Hfx in Hall.
      by discriminate Hall; left.
    + rewrite IH. split.
      * intros Hall y [->|Hy]%elem_of_cons; [done | by apply Hall].
      * intros Hall y Hy. apply Hall. by right.
Qed.

(** C3, amended.  The list-by-user handler answers 404 with the not-found
    error of its entity exactly when the mirror's list-by-user lookup for
    the user is the empty sequence, and 200 with the sequence otherwise;
    neither touches the mirror or the Store.  The lookup is the empty
    sequence exactly when the by-user index lists for the user no identifier
    the primary index holds, as for every user the by-user index has no
    entry for. *)
Theorem list_by_user_answers c id :
  (cache.applicationsByUser c !! id = None → cache.GetApplicationsByUserID c id = []) ∧
  (cache.GetApplicationsByUserID c id = [] →
   run (Router.GetApplicationByUserID id) c =
     answered Router.StatusNotFound (JSONError Router.errApplicationNotFound) c []) ∧
  (cache.GetApplicationsByUserID c id ≠ [] →
   run (Router.GetApplicationByUserID id) c =
     answered Router.StatusOK (JSONApplicationList (cache.GetApplicationsByUserID c id))
       c []) ∧
  (cache.loadBalancersByUser c !! id = None → cache.GetLoadBalancersByUserID c id = []) ∧
  (cache.GetLoadBalancersByUserID c id = [] →
   run (Router.GetLoadBalancerByUserID id) c =
     answered Router.StatusNotFound (JSONError Router.errBalancerNotFound) c []) ∧
  (cache.GetLoadBalancersByUserID c id ≠ [] →
   run (Router.GetLoadBalancerByUserID id) c =
     answered Router.StatusOK (JSONLoadBalancerList (cache.GetLoadBalancersByUserID c id))
       c []) ∧
  (cache.GetApplicationsByUserID c id = [] ↔
   ∀ appID, appID ∈ default [] (cache.applicationsByUser c !! id) →
            cache.GetApplication c appID = None) ∧
  (cache.GetLoadBalancersByUserID c id = [] ↔
   ∀ lbID, lbID ∈ default [] (cache.loadBalancersByUser c !! id) →
           cache.GetLoadBalancer c lbID = None) ∧
  ((run (Router.GetApplicationByUserID id) c).1 =
     Responded Router.StatusNotFound (JSONError Router.errApplicationNotFound) ↔
   cache.GetApplicationsByUserID c id = []) ∧
  ((run (Router.GetLoadBalancerByUserID id) c).1 =
     Responded Router.StatusNotFound (JSONError Router.errBalancerNotFound) ↔
   cache.GetLoadBalancersByUserID c id = []).
Proof.
  unfold Router.GetApplicationByUserID, Router.GetLoadBalancerByUserID, answered.
  unfold_handler.
  split; [|split; [|split; [|split; [|split; [|split; [|split; [|split; [|split]]]]]]]].
  - intros Hnone. unfold cache.GetApplicationsByUserID. by rewrite Hnone.
  - by intros ->.
  - intros Hne. destruct (cache.GetApplicationsByUserID c id); done.
  - intros Hnone. unfold cache.GetLoadBalancersByUserID. by rewrite Hnone.
  - by intros ->.
  - intros Hne. destruct (cache.GetLoadBalancersByUserID c id); done.
  - apply omap_nil_iff.
  - apply omap_nil_iff.
  - destruct (cache.GetApplicationsByUserID c id); simpl; split; done.
  - destruct (cache.GetLoadBalancersByUserID c id); simpl; split; done.
Qed.

(** On the sample mirror: the user nobody knows, and user1, who owns two
    applications and one load balancer. *)
Lemma list_by_user_answers_witness :
  run (Router.GetApplicationByUserID "nonexistent-user") sample.c0 =
    answered 404 (JSONError "applications not found") sample.c0 [] ∧
  run (Router.GetApplicationByUserID "user1") sample.c0 =
    answered 200 (JSONApplicationList [sample.app1; sample.app2]) sample.c0 [] ∧
  run (Router.GetLoadBalancerByUserID "nonexistent-user") sample.c0 =
    answered 404 (JSONError "load balancer not found") sample.c0 [] ∧
  run (Router.GetLoadBalancerByUserID "user1") sample.c0 =
    answered 200 (JSONLoadBalancerList [sample.lb1]) sample.c0 [].
Proof.
  destruct (list_by_user_answers sample.c0 "nonexistent-user")
    as (Hnone & Hempty & _ & HnoneLB & HemptyLB & _).
  destruct (list_by_user_answers sample.c0 "user1") as (_ & _ & Hsome & _ & _ & HsomeLB & _).
  split; [|split; [|split]].
  - apply Hempty, Hnone. vm_compute; reflexivity.
  - rewrite Hsome; [vm_compute; reflexivity | vm_compute; discriminate].
  - apply HemptyLB, HnoneLB. vm_compute; reflexivity.
  - rewrite HsomeLB; [vm_compute; reflexivity | vm_compute; discriminate].
Defined.

(** ** Creating a load balancer *)

Lemma foldl_append_lookup (c : cache.Cache) (ids : list string)
    (acc : list (option ApplicationPtr)) :
  foldl (λ (applications : list (option ApplicationPtr)) appID,
           (applications ++ [cache.GetApplicationPtr c appID])%list) acc ids =
  (acc ++ map (cache.GetApplicationPtr c) ids)%list.
Proof.
  revert acc. induction ids as [|appID ids IH]; intros acc; simpl.
  - by rewrite app_nil_r.
  - by rewrite IH, <- app_assoc.
Qed.

Lemma resolveApplications_app c fullLB :
  Router.resolveApplications c fullLB =
  (Applications fullLB ++ map (cache.GetApplicationPtr c) (ApplicationIDs fullLB))%list.
Proof. apply foldl_append_lookup. Qed.

Lemma deref_GetApplicationPtr c id :
  cache.deref c (cache.GetApplicationPtr c id) = cache.GetApplication c id.
Proof.
  unfold cache.GetApplicationPtr.
  destruct (cache.GetApplication c id) as [app|] eqn:Hget; simpl; done.
Qed.

(** C8.  A load balancer the Store created as [fullLB]: the handler answers
    200 with [fullLB] in which the application list is the list the Store
    returned followed by the lookup in the mirror's application index of
    each member identifier, in the order of the identifier list, and in which
    the identifier list is nil; no other field changes and the mirror is not
    written.  The lookup of a member the mirror holds is the pointer to the
    mirror's object, so the materialized list shows the application the
    mirror holds; a member the mirror does not hold is listed as a nil
    pointer. *)
Theorem create_load_balancer_resolves_members W c lb fullLB :
  Writer.WriteLoadBalancer W lb = (Some fullLB, None) →
  ∃ lb',
    run (Router.CreateLoadBalancer W (Router.DecodeOk lb)) c =
      answered Router.StatusOK (JSONLoadBalancer (Some lb')) c
        [Writer.CallWriteLoadBalancer lb] ∧
    Applications lb' =
      (Applications fullLB ++ map (cache.GetApplicationPtr c) (ApplicationIDs fullLB))%list ∧
    cache.members c lb' =
      (cache.members c fullLB ++ map (cache.GetApplication c) (ApplicationIDs fullLB))%list ∧
    (Applications fullLB = [] →
     cache.members c lb' = map (cache.GetApplication c) (ApplicationIDs fullLB)) ∧
    (∀ (i : nat) appID,
       ApplicationIDs fullLB !! i = Some appID →
       cache.members c lb' !! (length (Applications fullLB) + i)%nat =
         Some (cache.GetApplication c appID) ∧
       (is_Some (cache.GetApplication c appID) →
        Applications lb' !! (length (Applications fullLB) + i)%nat =
          Some (Some (Cached appID))) ∧
       (cache.GetApplication c appID = None →
        Applications lb' !! (length (Applications fullLB) + i)%nat = Some None)) ∧
    ApplicationIDs lb' = [] ∧
    LBID lb' = LBID fullLB ∧ LBName lb' = LBName fullLB ∧
    LBUserID lb' = LBUserID fullLB ∧ RequestTimeout lb' = RequestTimeout fullLB ∧
    Gigastake lb' = Gigastake fullLB ∧
    GigastakeRedirect lb' = GigastakeRedirect fullLB ∧
    StickyOptions_ lb' = StickyOptions_ fullLB ∧
    LBCreatedAt lb' = LBCreatedAt fullLB ∧ LBUpdatedAt lb' = LBUpdatedAt fullLB.
Proof.
  intros Hw.
  exists (set_ApplicationIDs [] (set_Applications (Router.resolveApplications c fullLB) fullLB)).
  split.
  { unfold Router.CreateLoadBalancer, answered. unfold_handler. by rewrite Hw. }
  assert (map (cache.deref c) (map (cache.GetApplicationPtr c) (ApplicationIDs fullLB)) =
          map (cache.GetApplication c) (ApplicationIDs fullLB)) as Hderef.
  { rewrite map_map. apply map_ext. intros appID. apply deref_GetApplicationPtr. }
  unfold cache.members. simpl. rewrite resolveApplications_app, map_app, Hderef.
  split; [done|]. split; [done|]. split; [by intros ->|]. split; [|done].
  intros i appID Hi.
  assert (∀ (A : Type) (pre post : list A),
            (pre ++ post)%list !! (length pre + i)%nat = post !! i) as Hpost.
  { intros A pre post. rewrite lookup_app_r by lia. f_equal. lia. }
  split; [|split].
  - rewrite <- (length_map (cache.deref c) (Applications fullLB)), Hpost.
    by rewrite list_lookup_fmap, Hi.
  - intros [app Happ]. rewrite Hpost, list_lookup_fmap, Hi. simpl.
    unfold cache.GetApplicationPtr. by rewrite Happ.
  - intros Hnone. rewrite Hpost, list_lookup_fmap, Hi. simpl.
    unfold cache.GetApplicationPtr. by rewrite Hnone.
Qed.

(** On the sample mirror: the Store returns a load balancer with members
    app2, an identifier the mirror does not hold, and app1. *)
Lemma create_load_balancer_resolves_members_witness :
  ∃ lb',
    run (Router.CreateLoadBalancer sample.accepting
           (Router.DecodeOk
              (set_Applications [] (set_ApplicationIDs ["app2"; "gone"; "app1"] sample.lb1))))
        sample.c0 =
      answered Router.StatusOK (JSONLoadBalancer (Some lb')) sample.c0
        [Writer.CallWriteLoadBalancer
           (set_Applications [] (set_ApplicationIDs ["app2"; "gone"; "app1"] sample.lb1))] ∧
    Applications lb' = [Some (Cached "app2"); None; Some (Cached "app1")] ∧
    cache.members sample.c0 lb' = [Some sample.app2; None; Some sample.app1] ∧
    ApplicationIDs lb' = [].
Proof.
  destruct (create_load_balancer_resolves_members sample.accepting sample.c0
              (set_Applications [] (set_ApplicationIDs ["app2"; "gone"; "app1"] sample.lb1))
              (set_Applications [] (set_ApplicationIDs ["app2"; "gone"; "app1"] sample.lb1)))
    as (lb' & Hrun & Hptrs & _ & Hmembers & _ & Hids & _).
  - reflexivity.
  - exists lb'. split; [exact Hrun|]. split; [|split; [|exact Hids]].
    + rewrite Hptrs. vm_compute; reflexivity.
    + rewrite Hmembers by reflexivity. vm_compute; reflexivity.
Defined.

(** ** Looking up a pay plan *)

(** C10.  The handler looks the upper-cased path parameter up in the pay-plan
    index: it answers 200 with the plan found there and 404 when there is
    none, so two parameters with the same upper-cased form are answered
    alike. *)
Theorem pay_plan_lookup_is_upper_cased (ToUpper : string → string) c :
  (∀ s,
     run (Router.GetPayPlan ToUpper s) c =
       match cache.GetPayPlan c (ToUpper s) with
       | Some plan => answered Router.StatusOK (JSONPayPlan plan) c []
       | None => answered Router.StatusNotFound (JSONError Router.errNoPayFound) c []
       end) ∧
  (∀ s1 s2,
     ToUpper s1 = ToUpper s2 →
     run (Router.GetPayPlan ToUpper s1) c = run (Router.GetPayPlan ToUpper s2) c).
Proof.
  assert (∀ s,
     run (Router.GetPayPlan ToUpper s) c =
       match cache.GetPayPlan c (ToUpper s) with
       | Some plan => answered Router.StatusOK (JSONPayPlan plan) c []
       | None => answered Router.StatusNotFound (JSONError Router.errNoPayFound) c []
       end) as Hrun.
  { intros s. unfold Router.GetPayPlan, answered. unfold_handler.
    by destruct (cache.GetPayPlan c (ToUpper s)). }
  split; [exact Hrun|].
  intros s1 s2 Heq. by rewrite !Hrun, Heq.
Qed.

(** With the upper-casing of ASCII letters, on the sample mirror: two
    spellings of FREETIER_V0 are answered with the same plan, two spellings
    of a plan the mirror does not hold with the same 404. *)
Lemma pay_plan_lookup_is_upper_cased_witness :
  run (Router.GetPayPlan sample.upperASCII "freetier_v0") sample.c0 =
    run (Router.GetPayPlan sample.upperASCII "FreeTier_V0") sample.c0 ∧
  run (Router.GetPayPlan sample.upperASCII "freetier_v0") sample.c0 =
    answered 200 (JSONPayPlan (mkPayPlan "FREETIER_V0" 250000)) sample.c0 [] ∧
  run (Router.GetPayPlan sample.upperASCII "enterprise") sample.c0 =
    run (Router.GetPayPlan sample.upperASCII "Enterprise") sample.c0 ∧
  run (Router.GetPayPlan sample.upperASCII "enterprise") sample.c0 =
    answered 404 (JSONError "pay plan not found") sample.c0 [].
Proof.
  destruct (pay_plan_lookup_is_upper_cased sample.upperASCII sample.c0) as [Hrun Hsame].
  split; [|split; [|split]].
  - apply Hsame. vm_compute; reflexivity.
  - rewrite Hrun. vm_compute; reflexivity.
  - apply Hsame. vm_compute; reflexivity.
  - rewrite Hrun. vm_compute; reflexivity.
Defined.

(** ** The bulk update of firstDateSurpassed *)

Lemma collectApplications_present ids : ∀ acc w,
  (∀ id, id ∈ ids → is_Some (cache.GetApplication (mirror w) id)) →
  Router.collectApplications ids acc w = (Continue (acc ++ ids)%list, w).
Proof.
  induction ids as [|appID ids IH]; intros acc w Hall; simpl.
  - by rewrite app_nil_r.
  - unfold_handler.
    destruct (Hall appID) as [app Happ]; [by left|]. rewrite Happ.
    rewrite IH; [by rewrite <- app_assoc|].
    intros id Hid. apply Hall. by right.
Qed.

Lemma collectApplications_missing ids : ∀ acc w id,
  id ∈ ids →
  cache.GetApplication (mirror w) id = None →
  ∃ missing,
    missing ∈ ids ∧ cache.GetApplication (mirror w) missing = None ∧
    Router.collectApplications ids acc w =
      (Stop (Responded Router.StatusNotFound (JSONError (missing ++ " not found"))), w).
Proof.
  induction ids as [|appID ids IH]; intros acc w id Hin Hnone.
  - by apply elem_of_nil in Hin.
  - simpl. unfold_handler.
    destruct (cache.GetApplication (mirror w) appID) as [app|] eqn:Happ.
    + apply elem_of_cons in Hin as [-> | Hin]; [congruence|].
      destruct (IH (acc ++ [appID])%list w id Hin Hnone) as (missing & Hm & Hmnone & Hrun).
      exists missing. split; [by right|]. split; [done|]. exact Hrun.
    + exists appID. split; [by left|]. done.
Qed.

Lemma assignFirstDateSurpassed_run ptrs t : ∀ w,
  Router.assignFirstDateSurpassed ptrs t w =
    (Continue tt,
     {| mirror := withFirstDateSurpassed t ptrs (mirror w); storeCalls := storeCalls w |}).
Proof.
  induction ptrs as [|ptr ptrs IH]; intros w; simpl.
  - by destruct w.
  - unfold_handler. by rewrite IH.
Qed.

Lemma GetApplication_assign c ptr f id :
  cache.GetApplication (cache.assignApplication ptr f c) id =
    if decide (ptr = id) then f <$> cache.GetApplication c id
    else cache.GetApplication c id.
Proof.
  unfold cache.GetApplication, cache.assignApplication. simpl.
  rewrite lookup_alter. by destruct (decide (ptr = id)) as [->|].
Qed.

Lemma GetApplication_withFirstDateSurpassed t ptrs : ∀ c id,
  cache.GetApplication (withFirstDateSurpassed t ptrs c) id =
    if decide (id ∈ ptrs) then set_FirstDateSurpassed t <$> cache.GetApplication c id
    else cache.GetApplication c id.
Proof.
  induction ptrs as [|ptr ptrs IH]; intros c id.
  - case_decide as Hin; [by apply elem_of_nil in Hin | done].
  - change (withFirstDateSurpassed t (ptr :: ptrs) c)
      with (withFirstDateSurpassed t ptrs
              (cache.assignApplication ptr (set_FirstDateSurpassed t) c)).
    rewrite IH, GetApplication_assign.
    destruct (decide (id ∈ ptrs)) as [Hin|Hout]; case_decide as Heq; simplify_eq.
    + rewrite decide_True by by left.
      by destruct (cache.GetApplication c id).
    + by rewrite decide_True by by right.
    + by rewrite decide_True by by left.
    + rewrite decide_False; [done|].
      intros [->|Hin]%elem_of_cons; done.
Qed.

Lemma withFirstDateSurpassed_indices t ptrs : ∀ c,
  cache.applicationsByUser (withFirstDateSurpassed t ptrs c) = cache.applicationsByUser c ∧
  cache.loadBalancers (withFirstDateSurpassed t ptrs c) = cache.loadBalancers c ∧
  cache.loadBalancersByUser (withFirstDateSurpassed t ptrs c) = cache.loadBalancersByUser c ∧
  cache.payPlans (withFirstDateSurpassed t ptrs c) = cache.payPlans c.
Proof.
  induction ptrs as [|ptr ptrs IH]; intros c; [done|].
  change (withFirstDateSurpassed t (ptr :: ptrs) c)
    with (withFirstDateSurpassed t ptrs
            (cache.assignApplication ptr (set_FirstDateSurpassed t) c)).
  destruct (IH (cache.assignApplication ptr (set_FirstDateSurpassed t) c))
    as (-> & -> & -> & ->). done.
Qed.

(** C9.  The bulk update, by the identifier list [ids] of the request.  An
    empty list is answered 400 with no Store call and the mirror as it was.
    When the mirror does not hold some listed identifier, the answer is 404
    naming such an identifier, with no Store call and the mirror as it was.
    When it holds them all and the Store refuses the write, the answer is
    500 with the Store's error and the mirror as it was.  When it holds them
    all and the Store accepts, the answer is 200 with the listed
    applications; in the mirror every listed application has its
    firstDateSurpassed equal to the request's value (the zero time
    included) and every other field as before, every other application and
    every other index is as before. *)
Theorem first_date_surpassed_is_all_or_nothing W c u :
  let ids := FDSApplicationIDs u in
  let t := FDSFirstDateSurpassed u in
  let result := run (Router.UpdateFirstDateSurpassed W (Router.DecodeOk u)) c in
  (ids = [] →
   result = answered Router.StatusBadRequest (JSONError "no application IDs on input") c []) ∧
  (∀ id, id ∈ ids → cache.GetApplication c id = None →
   ∃ missing,
     missing ∈ ids ∧ cache.GetApplication c missing = None ∧
     result = answered Router.StatusNotFound (JSONError (missing ++ " not found")) c []) ∧
  (∀ err,
     ids ≠ [] →
     (∀ id, id ∈ ids → is_Some (cache.GetApplication c id)) →
     Writer.UpdateFirstDateSurpassed W u = Some err →
     result = answered Router.StatusInternalServerError (JSONError err) c
                [Writer.CallUpdateFirstDateSurpassed u]) ∧
  (ids ≠ [] →
   (∀ id, id ∈ ids → is_Some (cache.GetApplication c id)) →
   Writer.UpdateFirstDateSurpassed W u = None →
   ∃ c',
     result = answered Router.StatusOK (JSONApplications (map (cache.GetApplication c') ids))
                c' [Writer.CallUpdateFirstDateSurpassed u] ∧
     (∀ id app, id ∈ ids → cache.GetApplication c id = Some app →
        ∃ app',
          cache.GetApplication c' id = Some app' ∧
          app' = set_FirstDateSurpassed t app ∧
          FirstDateSurpassed app' = t ∧
          Name app' = Name app ∧ Status app' = Status app ∧
          Limits app' = Limits app ∧
          GatewaySettings_ app' = GatewaySettings_ app ∧
          NotificationSettings_ app' = NotificationSettings_ app ∧
          sameFixedFields app app') ∧
     (∀ id, id ∉ ids → cache.GetApplication c' id = cache.GetApplication c id) ∧
     cache.applicationsByUser c' = cache.applicationsByUser c ∧
     cache.loadBalancers c' = cache.loadBalancers c ∧
     cache.loadBalancersByUser c' = cache.loadBalancersByUser c ∧
     cache.payPlans c' = cache.payPlans c).
Proof.
  intros ids t result. subst ids t result.
  unfold Router.UpdateFirstDateSurpassed, answered. unfold_handler.
  split; [|split; [|split]].
  - by intros ->.
  - intros id Hin Hnone.
    destruct (decide (length (FDSApplicationIDs u) = 0%nat)) as [Hlen|_].
    { apply nil_length_inv in Hlen. rewrite Hlen in Hin. by apply elem_of_nil in Hin. }
    destruct (collectApplications_missing (FDSApplicationIDs u) []
                {| mirror := c; storeCalls := [] |} id Hin Hnone)
      as (missing & Hm & Hmnone & Hrun).
    exists missing. split; [done|]. split; [done|]. by rewrite Hrun.
  - intros err Hne Hall Hw.
    destruct (decide (length (FDSApplicationIDs u) = 0%nat)) as [Hlen|_].
    { by apply nil_length_inv in Hlen. }
    rewrite collectApplications_present by done. simpl. by rewrite Hw.
  - intros Hne Hall Hw.
    destruct (decide (length (FDSApplicationIDs u) = 0%nat)) as [Hlen|_].
    { by apply nil_length_inv in Hlen. }
    rewrite collectApplications_present by done. simpl. rewrite Hw. simpl.
    rewrite assignFirstDateSurpassed_run. simpl.
    exists (withFirstDateSurpassed (FDSFirstDateSurpassed u) (FDSApplicationIDs u) c).
    split; [done|]. split; [|split].
    + intros id app Hin Hget.
      exists (set_FirstDateSurpassed (FDSFirstDateSurpassed u) app).
      split; [by rewrite GetApplication_withFirstDateSurpassed, decide_True, Hget|].
      unfold sameFixedFields. by destruct app.
    + intros id Hout.
      by rewrite GetApplication_withFirstDateSurpassed, decide_False.
    + apply withFirstDateSurpassed_indices.
Qed.

(** On the sample mirror, with the instant 77: the empty list; a list with
    an identifier the mirror does not hold; the Store that refuses; and the
    Store that accepts, for a list that names app2 twice. *)
Lemma first_date_surpassed_is_all_or_nothing_witness :
  run (Router.UpdateFirstDateSurpassed sample.accepting
         (Router.DecodeOk (mkUpdateFirstDateSurpassed [] 77))) sample.c0 =
    answered 400 (JSONError "no application IDs on input") sample.c0 [] ∧
  run (Router.UpdateFirstDateSurpassed sample.accepting
         (Router.DecodeOk (mkUpdateFirstDateSurpassed ["app1"; "gone"] 77))) sample.c0 =
    answered 404 (JSONError "gone not found") sample.c0 [] ∧
  run (Router.UpdateFirstDateSurpassed sample.refusing
         (Router.DecodeOk (mkUpdateFirstDateSurpassed ["app1"; "app2"] 77))) sample.c0 =
    answered 500 (JSONError "store unavailable") sample.c0
      [Writer.CallUpdateFirstDateSurpassed (mkUpdateFirstDateSurpassed ["app1"; "app2"] 77)] ∧
  ∃ c',
    run (Router.UpdateFirstDateSurpassed sample.accepting
           (Router.DecodeOk (mkUpdateFirstDateSurpassed ["app2"; "app1"; "app2"] 77)))
        sample.c0 =
      answered 200
        (JSONApplications
           [Some (set_FirstDateSurpassed 77 sample.app2);
            Some (set_FirstDateSurpassed 77 sample.app1);
            Some (set_FirstDateSurpassed 77 sample.app2)])
        c' [Writer.CallUpdateFirstDateSurpassed
              (mkUpdateFirstDateSurpassed ["app2"; "app1"; "app2"] 77)] ∧
    cache.GetApplication c' "app1" = Some (set_FirstDateSurpassed 77 sample.app1) ∧
    cache.GetApplication c' "app2" = Some (set_FirstDateSurpassed 77 sample.app2) ∧
    FirstDateSurpassed <$> cache.GetApplication c' "app1" = Some 77 ∧
    FirstDateSurpassed <$> cache.GetApplication c' "app2" = Some 77 ∧
    Name <$> cache.GetApplication c' "app1" = Some "first app".
Proof.
  split; [|split; [|split]].
  - apply (first_date_surpassed_is_all_or_nothing sample.accepting sample.c0
             (mkUpdateFirstDateSurpassed [] 77)).
    reflexivity.
  - destruct (first_date_surpassed_is_all_or_nothing sample.accepting sample.c0
                (mkUpdateFirstDateSurpassed ["app1"; "gone"] 77)) as (_ & Hmissing & _).
    destruct (Hmissing "gone") as (missing & Hin & Hnone & Hrun).
    + simpl. right. left.
    + vm_compute; reflexivity.
    + simpl in Hin.
      apply elem_of_cons in Hin as [-> | Hin]; [vm_compute in Hnone; discriminate|].
      apply elem_of_cons in Hin as [-> | Hin]; [exact Hrun|].
      by apply elem_of_nil in Hin.
  - apply (first_date_surpassed_is_all_or_nothing sample.refusing sample.c0
             (mkUpdateFirstDateSurpassed ["app1"; "app2"] 77)).
    + discriminate.
    + simpl. intros id Hin.
      apply elem_of_cons in Hin as [-> | Hin]; [vm_compute; by eexists|].
      apply elem_of_cons in Hin as [-> | Hin]; [vm_compute; by eexists|].
      by apply elem_of_nil in Hin.
    + reflexivity.
  - destruct (first_date_surpassed_is_all_or_nothing sample.accepting sample.c0
                (mkUpdateFirstDateSurpassed ["app2"; "app1"; "app2"] 77))
      as (_ & _ & _ & Hok).
    destruct Hok as (c' & Hrun & Hset & _).
    + discriminate.
    + simpl. intros id Hin.
      apply elem_of_cons in Hin as [-> | Hin]; [vm_compute; by eexists|].
      apply elem_of_cons in Hin as [-> | Hin]; [vm_compute; by eexists|].
      apply elem_of_cons in Hin as [-> | Hin]; [vm_compute; by eexists|].
      by apply elem_of_nil in Hin.
    + reflexivity.
    + simpl in Hset.
      destruct (Hset "app1" sample.app1) as (app1' & Happ1 & -> & Hdate1 & Hname1 & _);
        [right; left | vm_compute; reflexivity |].
      destruct (Hset "app2" sample.app2) as (app2' & Happ2 & -> & Hdate2 & _);
        [left | vm_compute; reflexivity |].
      exists c'. split; [|split; [exact Happ1|split; [exact Happ2|]]].
      * rewrite Hrun. simpl. by rewrite Happ1, Happ2.
      * rewrite Happ1, Happ2. cbn [fmap option_fmap option_map].
        by rewrite Hdate1, Hdate2, Hname1.
Defined.

(** ** Requests turned away before the Store *)

Lemma UpdateApplication_run_undecodable AGP W c id app err :
  cache.GetApplication c id = Some app →
  run (Router.UpdateApplication AGP W id (Router.DecodeErr err)) c =
    answered Router.StatusBadRequest (JSONError err) c [].
Proof.
  intros Hget. unfold Router.UpdateApplication, answered. unfold_handler.
  by rewrite Hget.
Qed.

Lemma UpdateLoadBalancer_run_undecodable W c id lb err :
  cache.GetLoadBalancer c id = Some lb →
  run (Router.UpdateLoadBalancer W id (Router.DecodeErr err)) c =
    answered Router.StatusBadRequest (JSONError err) c [].
Proof.
  intros Hget. unfold Router.UpdateLoadBalancer, answered. unfold_handler.
  by rewrite Hget.
Qed.

(** X1.  The order of the checks.  An update of an identifier the mirror
    does not hold is answered 404 whatever the body, decodable or not; an
    update of an entity it holds with a body that does not decode is
    answered 400 with the decoder's message, and so is a creation or a bulk
    update with such a body.  In each case the Store is not called and the
    mirror is not touched. *)
Theorem turned_away_before_the_store AGP W c :
  (∀ id body,
     cache.GetApplication c id = None →
     run (Router.UpdateApplication AGP W id body) c =
       answered Router.StatusNotFound (JSONError Router.errApplicationNotFound) c []) ∧
  (∀ id body,
     cache.GetLoadBalancer c id = None →
     run (Router.UpdateLoadBalancer W id body) c =
       answered Router.StatusNotFound (JSONError Router.errBalancerNotFound) c []) ∧
  (∀ id app err,
     cache.GetApplication c id = Some app →
     run (Router.UpdateApplication AGP W id (Router.DecodeErr err)) c =
       answered Router.StatusBadRequest (JSONError err) c []) ∧
  (∀ id lb err,
     cache.GetLoadBalancer c id = Some lb →
     run (Router.UpdateLoadBalancer W id (Router.DecodeErr err)) c =
       answered Router.StatusBadRequest (JSONError err) c []) ∧
  (∀ err,
     run (Router.CreateApplication W (Router.DecodeErr err)) c =
       answered Router.StatusBadRequest (JSONError err) c [] ∧
     run (Router.CreateLoadBalancer W (Router.DecodeErr err)) c =
       answered Router.StatusBadRequest (JSONError err) c [] ∧
     run (Router.UpdateFirstDateSurpassed W (Router.DecodeErr err)) c =
       answered Router.StatusBadRequest (JSONError err) c []).
Proof.
  split; [|split; [|split; [|split]]].
  - intros id body. apply UpdateApplication_run_absent.
  - intros id body. apply UpdateLoadBalancer_run_absent.
  - intros id app err. apply UpdateApplication_run_undecodable.
  - intros id lb err. apply UpdateLoadBalancer_run_undecodable.
  - intros err. done.
Qed.

(** On the sample mirror, with the Store that accepts everything: an update
    of an unknown application whose body does not decode, and an update of
    app1 whose body does not decode. *)
Lemma turned_away_before_the_store_witness :
  run (Router.UpdateApplication sample.AwaitingGracePeriod sample.accepting "gone"
         (Router.DecodeErr "unexpected EOF")) sample.c0 =
    answered 404 (JSONError "applications not found") sample.c0 [] ∧
  run (Router.UpdateApplication sample.AwaitingGracePeriod sample.accepting "app1"
         (Router.DecodeErr "unexpected EOF")) sample.c0 =
    answered 400 (JSONError "unexpected EOF") sample.c0 [] ∧
  run (Router.UpdateLoadBalancer sample.accepting "gone"
         (Router.DecodeOk sample.renameLB)) sample.c0 =
    answered 404 (JSONError "load balancer not found") sample.c0 [] ∧
  run (Router.UpdateLoadBalancer sample.accepting "lb1"
         (Router.DecodeErr "unexpected EOF")) sample.c0 =
    answered 400 (JSONError "unexpected EOF") sample.c0 [].
Proof.
  destruct (turned_away_before_the_store sample.AwaitingGracePeriod sample.accepting
              sample.c0) as (Habsent & HabsentLB & Hbody & HbodyLB & _).
  split; [|split; [|split]].
  - apply Habsent. vm_compute; reflexivity.
  - apply (Hbody "app1" sample.app1). vm_compute; reflexivity.
  - apply HabsentLB. vm_compute; reflexivity.
  - apply (HbodyLB "lb1" sample.lb1). vm_compute; reflexivity.
Defined.

(** ** Creation *)

Lemma CreateLoadBalancer_run W c lb :
  run (Router.CreateLoadBalancer W (Router.DecodeOk lb)) c =
    match Writer.WriteLoadBalancer W lb with
    | (_, Some err) =>
        answered Router.StatusInternalServerError (JSONError err) c
          [Writer.CallWriteLoadBalancer lb]
    | (None, None) => panicked c [Writer.CallWriteLoadBalancer lb]
    | (Some fullLB, None) =>
        answered Router.StatusOK
          (JSONLoadBalancer
             (Some (set_ApplicationIDs []
                      (set_Applications (Router.resolveApplications c fullLB) fullLB))))
          c [Writer.CallWriteLoadBalancer lb]
    end.
Proof.
  unfold Router.CreateLoadBalancer, answered, panicked. unfold_handler.
  by destruct (Writer.WriteLoadBalancer W lb) as [[fullLB|] [err|]].
Qed.

(** X2.  The creation handlers do not write the mirror: whatever the body
    and whatever the Store answers, the mirror after [CreateApplication] or
    [CreateLoadBalancer] is the mirror before, and at most one Store call was
    made.  So an application the Store created under an identifier the
    mirror does not hold is answered 200 to its creator and 404 to the get
    that follows. *)
Theorem creation_leaves_the_mirror W c :
  (∀ body,
     mirror (run (Router.CreateApplication W body) c).2 = c ∧
     (length (storeCalls (run (Router.CreateApplication W body) c).2) ≤ 1)%nat) ∧
  (∀ body,
     mirror (run (Router.CreateLoadBalancer W body) c).2 = c ∧
     (length (storeCalls (run (Router.CreateLoadBalancer W body) c).2) ≤ 1)%nat) ∧
  (∀ app fullApp,
     Writer.WriteApplication W app = (Some fullApp, None) →
     PayPlan_Type fullApp = "" ∨ is_Some (cache.GetPayPlan c (PayPlan_Type fullApp)) →
     cache.GetApplication c (ID fullApp) = None →
     ∃ app',
       (run (Router.CreateApplication W (Router.DecodeOk app)) c).1 =
         Responded Router.StatusOK (JSONApplication (Some app')) ∧
       ID app' = ID fullApp ∧
       run (Router.GetApplication (ID app'))
           (mirror (run (Router.CreateApplication W (Router.DecodeOk app)) c).2) =
         answered Router.StatusNotFound (JSONError Router.errApplicationNotFound) c []).
Proof.
  assert (∀ body,
     mirror (run (Router.CreateApplication W body) c).2 = c ∧
     (length (storeCalls (run (Router.CreateApplication W body) c).2) ≤ 1)%nat) as Happ.
  { intros [app|err]; [|by split; [|simpl; lia]].
    rewrite CreateApplication_run.
    destruct (Writer.WriteApplication W app) as [[fullApp|] [err|]]; simpl; try done.
    destruct (bool_decide (PayPlan_Type fullApp ≠ "")); [|done].
    by destruct (cache.GetPayPlan c (PayPlan_Type fullApp)). }
  split; [exact Happ|]. split.
  - intros [lb|err]; [|by split; [|simpl; lia]].
    rewrite CreateLoadBalancer_run.
    by destruct (Writer.WriteLoadBalancer W lb) as [[fullLB|] [err|]].
  - intros app fullApp Hw Hplan Hnone.
    destruct (Happ (Router.DecodeOk app)) as [-> _].
    rewrite CreateApplication_run, Hw.
    assert (run (Router.GetApplication (ID fullApp)) c =
              answered Router.StatusNotFound (JSONError Router.errApplicationNotFound) c [])
      as Hget.
    { unfold Router.GetApplication, answered. unfold_handler. by rewrite Hnone. }
    case_bool_decide as Hpp.
    + destruct Hplan as [Hempty | [plan Hfound]]; [done|]. rewrite Hfound.
      eexists; split; [reflexivity|]. by split.
    + eexists; split; [reflexivity|]. by split.
Qed.

(** On the sample mirror, which does not hold app3: the Store creates app3
    with the plan TEST_PLAN_V0. *)
Lemma creation_leaves_the_mirror_witness :
  ∃ app',
    (run (Router.CreateApplication sample.accepting (Router.DecodeOk fixtures.app3))
         sample.c0).1 =
      Responded 200 (JSONApplication (Some app')) ∧
    ID app' = "app3" ∧
    run (Router.GetApplication (ID app'))
        (mirror (run (Router.CreateApplication sample.accepting
                        (Router.DecodeOk fixtures.app3)) sample.c0).2) =
      answered 404 (JSONError "applications not found") sample.c0 [].
Proof.
  destruct (creation_leaves_the_mirror sample.accepting sample.c0) as (_ & _ & Hcreate).
  apply (Hcreate fixtures.app3 fixtures.app3).
  - reflexivity.
  - right. vm_compute. by eexists.
  - vm_compute; reflexivity.
Defined.

(** X3.  How a creation fails after the Store was called.  When the Store
    returns an error the handler answers 500 with its message, whatever
    pointer came with it.  When the Store returns neither an error nor a
    record, or returns an application whose pay plan type names a plan the
    mirror does not hold, the handler panics.  The mirror is as before. *)
Theorem creation_failures W c :
  (∀ app ptr err,
     Writer.WriteApplication W app = (ptr, Some err) →
     run (Router.CreateApplication W (Router.DecodeOk app)) c =
       answered Router.StatusInternalServerError (JSONError err) c
         [Writer.CallWriteApplication app]) ∧
  (∀ app,
     Writer.WriteApplication W app = (None, None) →
     run (Router.CreateApplication W (Router.DecodeOk app)) c =
       panicked c [Writer.CallWriteApplication app]) ∧
  (∀ app fullApp,
     Writer.WriteApplication W app = (Some fullApp, None) →
     PayPlan_Type fullApp ≠ "" →
     cache.GetPayPlan c (PayPlan_Type fullApp) = None →
     run (Router.CreateApplication W (Router.DecodeOk app)) c =
       panicked c [Writer.CallWriteApplication app]) ∧
  (∀ lb ptr err,
     Writer.WriteLoadBalancer W lb = (ptr, Some err) →
     run (Router.CreateLoadBalancer W (Router.DecodeOk lb)) c =
       answered Router.StatusInternalServerError (JSONError err) c
         [Writer.CallWriteLoadBalancer lb]) ∧
  (∀ lb,
     Writer.WriteLoadBalancer W lb = (None, None) →
     run (Router.CreateLoadBalancer W (Router.DecodeOk lb)) c =
       panicked c [Writer.CallWriteLoadBalancer lb]).
Proof.
  split; [|split; [|split; [|split]]].
  - intros app ptr err Hw. rewrite CreateApplication_run, Hw. by destruct ptr.
  - intros app Hw. by rewrite CreateApplication_run, Hw.
  - intros app fullApp Hw Hne Hnone.
    by rewrite CreateApplication_run, Hw, Hnone, bool_decide_eq_true_2.
  - intros lb ptr err Hw. rewrite CreateLoadBalancer_run, Hw. by destruct ptr.
  - intros lb Hw. by rewrite CreateLoadBalancer_run, Hw.
Qed.

(** With the Store that answers an application's creation with an error and
    a pointer and a load balancer's with neither; and, with the Store that
    accepts, an application whose plan the sample mirror does not hold. *)
Lemma creation_failures_witness :
  run (Router.CreateApplication fixtures.halfBroken (Router.DecodeOk fixtures.app3))
      sample.c0 =
    answered 500 (JSONError "duplicate key") sample.c0
      [Writer.CallWriteApplication fixtures.app3] ∧
  run (Router.CreateLoadBalancer fixtures.halfBroken (Router.DecodeOk sample.lb1))
      sample.c0 =
    panicked sample.c0 [Writer.CallWriteLoadBalancer sample.lb1] ∧
  run (Router.CreateApplication sample.accepting
         (Router.DecodeOk (set_PayPlanType "ENTERPRISE" fixtures.app3))) sample.c0 =
    panicked sample.c0
      [Writer.CallWriteApplication (set_PayPlanType "ENTERPRISE" fixtures.app3)].
Proof.
  destruct (creation_failures fixtures.halfBroken sample.c0)
    as (Herr & _ & _ & _ & Hnil).
  destruct (creation_failures sample.accepting sample.c0) as (_ & _ & Hplan & _).
  split; [|split].
  - apply (Herr fixtures.app3 (Some fixtures.app3)). reflexivity.
  - apply Hnil. reflexivity.
  - apply (Hplan _ (set_PayPlanType "ENTERPRISE" fixtures.app3)).
    + reflexivity.
    + discriminate.
    + vm_compute; reflexivity.
Defined.

(** ** What any update leaves in the mirror *)

(** The mirror after [UpdateApplication], whatever the body, the Store and
    the outcome: the mirror before, or the mirror before with one object in
    place of the application the identifier designated. *)
Lemma UpdateApplication_mirror AGP W c id body :
  mirror (run (Router.UpdateApplication AGP W id body) c).2 = c ∨
  ∃ app app',
    cache.GetApplication c id = Some app ∧
    mirror (run (Router.UpdateApplication AGP W id body) c).2 = withApplication id app' c.
Proof.
  destruct (cache.GetApplication c id) as [app|] eqn:Hget.
  - destruct body as [u|err].
    + rewrite (UpdateApplication_run _ _ _ _ _ _ Hget).
      destruct (URemove u).
      * destruct (Writer.RemoveApplication W id); [by left | right; by eexists _, _].
      * destruct (Writer.UpdateApplication W id u); [by left|].
        right. exists app.
        destruct (bool_decide (UPayPlanType u ≠ ""));
          [destruct (cache.GetPayPlan c (UPayPlanType u))|]; by eexists.
    + left. by rewrite (UpdateApplication_run_undecodable _ _ _ _ _ _ Hget).
  - left. by rewrite (UpdateApplication_run_absent _ _ _ _ _ Hget).
Qed.

Lemma UpdateLoadBalancer_mirror W c id body :
  mirror (run (Router.UpdateLoadBalancer W id body) c).2 = c ∨
  ∃ lb lb',
    cache.GetLoadBalancer c id = Some lb ∧
    mirror (run (Router.UpdateLoadBalancer W id body) c).2 = withLoadBalancer id lb' c.
Proof.
  destruct (cache.GetLoadBalancer c id) as [lb|] eqn:Hget.
  - destruct body as [u|err].
    + rewrite (UpdateLoadBalancer_run _ _ _ _ _ Hget).
      destruct (ULBRemove u).
      * destruct (Writer.RemoveLoadBalancer W id); [by left | right; by eexists _, _].
      * destruct (Writer.UpdateLoadBalancer W id u); [by left | right; by eexists _, _].
    + left. by rewrite (UpdateLoadBalancer_run_undecodable _ _ _ _ _ Hget).
  - left. by rewrite (UpdateLoadBalancer_run_absent _ _ _ _ Hget).
Qed.

(** X4.  An update touches one object.  Whatever the body, whatever the
    Store answers and however the handler ends (a panic included), after
    [UpdateApplication] of [id] every other application, every pay plan and
    both by-user indices are as before, and [id] is held exactly when it
    was; every load balancer object is as before, holding the same pointers,
    so that its materialized member list shows the application now held
    under [id] wherever it points to it, and every other member as before.
    Likewise for [UpdateLoadBalancer], which leaves the applications alone.
    In particular a removal takes nothing out of an index. *)
Theorem update_touches_one_entity AGP W c id body bodyLB :
  let c' := mirror (run (Router.UpdateApplication AGP W id body) c).2 in
  let c'' := mirror (run (Router.UpdateLoadBalancer W id bodyLB) c).2 in
  ((∀ other, other ≠ id → cache.GetApplication c' other = cache.GetApplication c other) ∧
   (is_Some (cache.GetApplication c' id) ↔ is_Some (cache.GetApplication c id)) ∧
   cache.applicationsByUser c' = cache.applicationsByUser c ∧
   cache.loadBalancers c' = cache.loadBalancers c ∧
   cache.loadBalancersByUser c' = cache.loadBalancersByUser c ∧
   cache.payPlans c' = cache.payPlans c ∧
   (∀ lbID lb (i : nat),
      cache.GetLoadBalancer c lbID = Some lb →
      cache.GetLoadBalancer c' lbID = Some lb ∧
      (Applications lb !! i = Some (Some (Cached id)) →
       cache.members c' lb !! i = Some (cache.GetApplication c' id)) ∧
      (∀ other, other ≠ id → Applications lb !! i = Some (Some (Cached other)) →
       cache.members c' lb !! i = Some (cache.GetApplication c other)) ∧
      (∀ app, Applications lb !! i = Some (Some (Own app)) →
       cache.members c' lb !! i = Some (Some app)) ∧
      (Applications lb !! i = Some None → cache.members c' lb !! i = Some None))) ∧
  ((∀ other, other ≠ id → cache.GetLoadBalancer c'' other = cache.GetLoadBalancer c other) ∧
   (is_Some (cache.GetLoadBalancer c'' id) ↔ is_Some (cache.GetLoadBalancer c id)) ∧
   cache.applications c'' = cache.applications c ∧
   cache.applicationsByUser c'' = cache.applicationsByUser c ∧
   cache.loadBalancersByUser c'' = cache.loadBalancersByUser c ∧
   cache.payPlans c'' = cache.payPlans c).
Proof.
  intros c' c''. subst c' c''. split.
  - assert (∀ c' : cache.Cache,
              cache.loadBalancers c' = cache.loadBalancers c →
              (∀ other, other ≠ id →
                        cache.GetApplication c' other = cache.GetApplication c other) →
              ∀ lbID lb (i : nat),
                cache.GetLoadBalancer c lbID = Some lb →
                cache.GetLoadBalancer c' lbID = Some lb ∧
                (Applications lb !! i = Some (Some (Cached id)) →
                 cache.members c' lb !! i = Some (cache.GetApplication c' id)) ∧
                (∀ other, other ≠ id → Applications lb !! i = Some (Some (Cached other)) →
                 cache.members c' lb !! i = Some (cache.GetApplication c other)) ∧
                (∀ app, Applications lb !! i = Some (Some (Own app)) →
                 cache.members c' lb !! i = Some (Some app)) ∧
                (Applications lb !! i = Some None → cache.members c' lb !! i = Some None))
      as Hmembers.
    { intros c' Hlbs Hothers lbID lb i Hlb.
      split; [unfold cache.GetLoadBalancer in *; by rewrite Hlbs|].
      unfold cache.members. rewrite list_lookup_fmap.
      split; [by intros ->|]. split; [|split; [by intros app ->|by intros ->]].
      intros other Hne ->. simpl. by rewrite Hothers. }
    destruct (UpdateApplication_mirror AGP W c id body) as [-> | (app & app' & Hget & ->)].
    { split; [done|]. split; [done|]. do 4 (split; [done|]). by apply Hmembers. }
    split; [|split; [|do 4 (split; [done|])]].
    + intros other Hne. by apply GetApplication_with_ne.
    + rewrite GetApplication_with, Hget. split; by eexists.
    + apply Hmembers; [done|]. intros other Hne. by apply GetApplication_with_ne.
  - destruct (UpdateLoadBalancer_mirror W c id bodyLB) as [-> | (lb & lb' & Hget & ->)];
      [done|].
    split; [|split; [|done]].
    + intros other Hne. unfold cache.GetLoadBalancer, withLoadBalancer. simpl.
      by apply lookup_insert_ne.
    + rewrite GetLoadBalancer_with, Hget. split; by eexists.
Qed.

(** On the sample mirror: after the renaming of app1, lb1 is the object it
    was and its member list shows app1 renamed. *)
Lemma update_touches_one_entity_witness :
  let c' :=
    mirror (run (Router.UpdateApplication sample.AwaitingGracePeriod sample.accepting "app1"
                   (Router.DecodeOk sample.rename)) sample.c0).2 in
  cache.GetLoadBalancer c' "lb1" = Some sample.lb1 ∧
  cache.members c' sample.lb1 !! 0%nat = Some (Some (set_Name "renamed" sample.app1)) ∧
  cache.members sample.c0 sample.lb1 !! 0%nat = Some (Some sample.app1).
Proof.
  intros c'. subst c'.
  destruct (update_touches_one_entity sample.AwaitingGracePeriod sample.accepting sample.c0
              "app1" (Router.DecodeOk sample.rename) (Router.DecodeOk sample.renameLB))
    as [(_ & _ & _ & _ & _ & _ & Hmembers) _].
  destruct (Hmembers "lb1" sample.lb1 0%nat) as (Hlb & Hshows & _);
    [vm_compute; reflexivity|].
  split; [exact Hlb|]. split; [|vm_compute; reflexivity].
  rewrite Hshows by reflexivity.
  rewrite (UpdateApplication_run _ _ _ _ sample.app1) by (vm_compute; reflexivity).
  simpl. by rewrite GetApplication_with.
Defined.

(** X5.  Read your writes.  When an update is answered 200, the entity in
    the answer is the entity the mirror then holds under the identifier: the
    get that follows is answered 200 with the same entity. *)
Theorem update_then_get AGP W c id :
  (∀ body x w',
     run (Router.UpdateApplication AGP W id body) c =
       (Responded Router.StatusOK (JSONApplication x), w') →
     ∃ app',
       x = Some app' ∧
       run (Router.GetApplication id) (mirror w') =
         answered Router.StatusOK (JSONApplication (Some app')) (mirror w') []) ∧
  (∀ body x w',
     run (Router.UpdateLoadBalancer W id body) c =
       (Responded Router.StatusOK (JSONLoadBalancer x), w') →
     ∃ lb',
       x = Some lb' ∧
       run (Router.GetLoadBalancer id) (mirror w') =
         answered Router.StatusOK (JSONLoadBalancer (Some lb')) (mirror w') []).
Proof.
  assert (∀ a, run (Router.GetApplication id) (withApplication id a c) =
               answered Router.StatusOK (JSONApplication (Some a)) (withApplication id a c) [])
    as Hread.
  { intros a. unfold Router.GetApplication, answered. unfold_handler.
    by rewrite GetApplication_with. }
  assert (∀ l, run (Router.GetLoadBalancer id) (withLoadBalancer id l c) =
               answered Router.StatusOK (JSONLoadBalancer (Some l)) (withLoadBalancer id l c) [])
    as HreadLB.
  { intros l. unfold Router.GetLoadBalancer, answered. unfold_handler.
    by rewrite GetLoadBalancer_with. }
  split.
  - intros body x w' Hrun.
    destruct (cache.GetApplication c id) as [app|] eqn:Hget;
      [|by rewrite (UpdateApplication_run_absent _ _ _ _ _ Hget) in Hrun].
    destruct body as [u|err];
      [|by rewrite (UpdateApplication_run_undecodable _ _ _ _ _ _ Hget) in Hrun].
    rewrite (UpdateApplication_run _ _ _ _ _ _ Hget) in Hrun.
    unfold answered, panicked in Hrun.
    destruct (URemove u).
    + destruct (Writer.RemoveApplication W id); [done|].
      injection Hrun as <- <-. eexists; split; [done|]. apply Hread.
    + destruct (Writer.UpdateApplication W id u); [done|].
      destruct (bool_decide (UPayPlanType u ≠ ""));
        [destruct (cache.GetPayPlan c (UPayPlanType u)); [|done]|];
        injection Hrun as <- <-; (eexists; split; [done|]); apply Hread.
  - intros body x w' Hrun.
    destruct (cache.GetLoadBalancer c id) as [lb|] eqn:Hget;
      [|by rewrite (UpdateLoadBalancer_run_absent _ _ _ _ Hget) in Hrun].
    destruct body as [u|err];
      [|by rewrite (UpdateLoadBalancer_run_undecodable _ _ _ _ _ Hget) in Hrun].
    rewrite (UpdateLoadBalancer_run _ _ _ _ _ Hget) in Hrun.
    unfold answered in Hrun.
    destruct (ULBRemove u).
    + destruct (Writer.RemoveLoadBalancer W id); [done|].
      injection Hrun as <- <-. eexists; split; [done|]. apply HreadLB.
    + destruct (Writer.UpdateLoadBalancer W id u); [done|].
      injection Hrun as <- <-. eexists; split; [done|]. apply HreadLB.
Qed.

(** The renaming of app1 and of lb1 on the sample mirror. *)
Lemma update_then_get_witness :
  (∃ c',
     run (Router.GetApplication "app1") c' =
       answered 200 (JSONApplication (Some (set_Name "renamed" sample.app1))) c' []) ∧
  (∃ c',
     run (Router.GetLoadBalancer "lb1") c' =
       answered 200 (JSONLoadBalancer (Some (set_LBName "renamed lb" sample.lb1))) c' []).
Proof.
  destruct (update_then_get sample.AwaitingGracePeriod sample.accepting sample.c0 "app1")
    as [Happ _].
  destruct (update_then_get sample.AwaitingGracePeriod sample.accepting sample.c0 "lb1")
    as [_ Hlb].
  split.
  - destruct (Happ (Router.DecodeOk sample.rename)
                (Some (set_Name "renamed" sample.app1))
                {| mirror := withApplication "app1" (set_Name "renamed" sample.app1) sample.c0;
                   storeCalls := [Writer.CallUpdateApplication "app1" sample.rename] |})
      as (app' & Heq & Hget).
    + rewrite (UpdateApplication_run _ _ _ _ sample.app1) by (vm_compute; reflexivity).
      reflexivity.
    + injection Heq as <-. eexists. exact Hget.
  - destruct (Hlb (Router.DecodeOk sample.renameLB)
                (Some (set_LBName "renamed lb" sample.lb1))
                {| mirror := withLoadBalancer "lb1" (set_LBName "renamed lb" sample.lb1)
                               sample.c0;
                   storeCalls := [Writer.CallUpdateLoadBalancer "lb1" sample.renameLB] |})
      as (lb' & Heq & Hget).
    + rewrite (UpdateLoadBalancer_run _ _ _ sample.lb1) by (vm_compute; reflexivity).
      reflexivity.
    + injection Heq as <-. eexists. exact Hget.
Defined.

(** ** What no update can do *)

(** X6.  Whatever the body, whatever the Store answers and however the
    handler ends, an application the mirror holds is still held afterwards,
    with the same identifier, owner, pay plan type, gateway AAT and the other
    fields no request names; a name and a firstDateSurpassed that were not
    the zero value are not the zero value afterwards (the handler cannot
    clear them), and neither is the status, provided the removal status is
    not the empty string.  A load balancer keeps its identifier and its
    members, a name that was not empty is not empty afterwards, and its
    owner is the owner before or nobody. *)
Theorem update_cannot_clear AGP W c id :
  (∀ app body,
     cache.GetApplication c id = Some app →
     ∃ app',
       cache.GetApplication
         (mirror (run (Router.UpdateApplication AGP W id body) c).2) id = Some app' ∧
       sameFixedFields app app' ∧
       (Name app ≠ "" → Name app' ≠ "") ∧
       (FirstDateSurpassed app ≠ time.zero → FirstDateSurpassed app' ≠ time.zero) ∧
       (AGP ≠ "" → Status app ≠ "" → Status app' ≠ "")) ∧
  (∀ lb body,
     cache.GetLoadBalancer c id = Some lb →
     ∃ lb',
       cache.GetLoadBalancer
         (mirror (run (Router.UpdateLoadBalancer W id body) c).2) id = Some lb' ∧
       sameFixedFieldsLB lb lb' ∧
       (LBName lb ≠ "" → LBName lb' ≠ "") ∧
       (LBUserID lb' = LBUserID lb ∨ LBUserID lb' = "")).
Proof.
  split.
  - intros app body Hget.
    assert (∀ a, a = app → ∃ app',
              a = app' ∧ sameFixedFields app app' ∧
              (Name app ≠ "" → Name app' ≠ "") ∧
              (FirstDateSurpassed app ≠ time.zero → FirstDateSurpassed app' ≠ time.zero) ∧
              (AGP ≠ "" → Status app ≠ "" → Status app' ≠ "")) as Hsame.
    { intros a ->. exists app. unfold sameFixedFields. done. }
    destruct body as [u|err];
      [|rewrite (UpdateApplication_run_undecodable _ _ _ _ _ _ Hget); simpl;
        rewrite Hget; destruct (Hsame app eq_refl) as (a & <- & H); by exists app].
    rewrite (UpdateApplication_run _ _ _ _ _ _ Hget).
    unfold answered, panicked, afterPlan, beforePlan, whenSet, sameFixedFields,
      time.IsZero, time.zero.
    destruct (URemove u).
    + destruct (Writer.RemoveApplication W id); simpl.
      * rewrite Hget. by exists app.
      * rewrite GetApplication_with. eexists; split; [done|]. by destruct app.
    + destruct (Writer.UpdateApplication W id u); simpl.
      * rewrite Hget. by exists app.
      * destruct (bool_decide (UPayPlanType u ≠ ""));
          [destruct (cache.GetPayPlan c (UPayPlanType u))|];
          simpl; rewrite GetApplication_with; (eexists; split; [done|]);
          destruct app; simpl;
          destruct (Z.eqb_spec (UFirstDateSurpassed u) 0);
          destruct (UGatewaySettings u), (UNotificationSettings u);
          repeat case_bool_decide; simpl; repeat split; intros; simplify_eq; done.
  - intros lb body Hget.
    destruct body as [u|err];
      [|rewrite (UpdateLoadBalancer_run_undecodable _ _ _ _ _ Hget); simpl;
        rewrite Hget; exists lb; unfold sameFixedFieldsLB; by auto 10].
    rewrite (UpdateLoadBalancer_run _ _ _ _ _ Hget).
    unfold answered, afterUpdateLoadBalancer, whenSet, sameFixedFieldsLB.
    destruct (ULBRemove u).
    + destruct (Writer.RemoveLoadBalancer W id); simpl.
      * rewrite Hget. exists lb. by auto 10.
      * rewrite GetLoadBalancer_with. eexists; split; [done|]. destruct lb; simpl. by auto 10.
    + destruct (Writer.UpdateLoadBalancer W id u); simpl.
      * rewrite Hget. exists lb. by auto 10.
      * rewrite GetLoadBalancer_with. eexists; split; [done|].
        destruct lb; simpl. destruct (UStickyOptions u); repeat case_bool_decide;
          simpl; repeat split; intros; simplify_eq; auto.
Qed.

(** On the sample mirror: the removal of app1 and the removal of lb1. *)
Lemma update_cannot_clear_witness :
  (∃ app',
     cache.GetApplication
       (mirror (run (Router.UpdateApplication sample.AwaitingGracePeriod sample.accepting
                       "app1" (Router.DecodeOk sample.removeApp)) sample.c0).2) "app1" =
       Some app' ∧
     ID app' = "app1" ∧ UserID app' = "user1" ∧ Name app' ≠ "") ∧
  (∃ lb',
     cache.GetLoadBalancer
       (mirror (run (Router.UpdateLoadBalancer sample.accepting "lb1"
                       (Router.DecodeOk sample.removeLB)) sample.c0).2) "lb1" = Some lb' ∧
     LBID lb' = "lb1" ∧ LBName lb' ≠ "").
Proof.
  destruct (update_cannot_clear sample.AwaitingGracePeriod sample.accepting sample.c0 "app1")
    as [Happ _].
  destruct (update_cannot_clear sample.AwaitingGracePeriod sample.accepting sample.c0 "lb1")
    as [_ Hlb].
  split.
  - destruct (Happ sample.app1 (Router.DecodeOk sample.removeApp))
      as (app' & Hget & Hfixed & Hname & _); [vm_compute; reflexivity|].
    destruct Hfixed as (Hid & Huser & _).
    exists app'. split; [exact Hget|]. split; [exact Hid|]. split; [exact Huser|].
    apply Hname. discriminate.
  - destruct (Hlb sample.lb1 (Router.DecodeOk sample.removeLB))
      as (lb' & Hget & Hfixed & Hname & _); [vm_compute; reflexivity|].
    destruct Hfixed as (Hid & _).
    exists lb'. split; [exact Hget|]. split; [exact Hid|].
    apply Hname. discriminate.
Defined.

(** ** Repeating an update *)

Lemma beforePlan_idempotent u a : beforePlan u (beforePlan u a) = beforePlan u a.
Proof.
  unfold beforePlan, whenSet.
  by destruct (bool_decide (UStatus u ≠ "")), (bool_decide (UName u ≠ "")).
Qed.

Lemma merge_idempotent u a :
  afterPlan u (beforePlan u (afterPlan u (beforePlan u a))) = afterPlan u (beforePlan u a).
Proof.
  unfold afterPlan, beforePlan, whenSet.
  by destruct (bool_decide (UStatus u ≠ "")), (bool_decide (UName u ≠ "")),
    (negb (time.IsZero (UFirstDateSurpassed u))), (UGatewaySettings u),
    (UNotificationSettings u).
Qed.

Lemma merge_with_plan_idempotent u l a :
  afterPlan u (set_Limits l (beforePlan u (afterPlan u (set_Limits l (beforePlan u a))))) =
  afterPlan u (set_Limits l (beforePlan u a)).
Proof.
  unfold afterPlan, beforePlan, whenSet.
  by destruct (bool_decide (UStatus u ≠ "")), (bool_decide (UName u ≠ "")),
    (negb (time.IsZero (UFirstDateSurpassed u))), (UGatewaySettings u),
    (UNotificationSettings u).
Qed.

Lemma afterUpdateLoadBalancer_idempotent u lb :
  afterUpdateLoadBalancer u (afterUpdateLoadBalancer u lb) = afterUpdateLoadBalancer u lb.
Proof.
  unfold afterUpdateLoadBalancer, whenSet.
  by destruct (bool_decide (ULBName u ≠ "")), (UStickyOptions u).
Qed.

(** X7.  An update is idempotent.  With a Store that answers the repeated
    call as it answered the first, running [UpdateApplication] (or
    [UpdateLoadBalancer]) again on the mirror the first run left gives the
    same answer, the same Store call and the same mirror: the merge, the
    removal transition and the failures alike. *)
Theorem update_is_idempotent AGP W c id :
  (∀ body,
     run (Router.UpdateApplication AGP W id body)
         (mirror (run (Router.UpdateApplication AGP W id body) c).2) =
       run (Router.UpdateApplication AGP W id body) c) ∧
  (∀ body,
     run (Router.UpdateLoadBalancer W id body)
         (mirror (run (Router.UpdateLoadBalancer W id body) c).2) =
       run (Router.UpdateLoadBalancer W id body) c).
Proof.
  split.
  - intros body.
    destruct (cache.GetApplication c id) as [app|] eqn:Hget;
      [|rewrite (UpdateApplication_run_absent _ _ _ _ _ Hget); simpl;
        by rewrite (UpdateApplication_run_absent _ _ _ _ _ Hget)].
    destruct body as [u|err];
      [|rewrite (UpdateApplication_run_undecodable _ _ _ _ _ _ Hget); simpl;
        by rewrite (UpdateApplication_run_undecodable _ _ _ _ _ _ Hget)].
    rewrite (UpdateApplication_run _ _ _ _ _ _ Hget).
    destruct (URemove u) eqn:Hrem.
    + destruct (Writer.RemoveApplication W id) eqn:Hw; simpl.
      * by rewrite (UpdateApplication_run _ _ _ _ _ _ Hget), Hrem, Hw.
      * rewrite (UpdateApplication_run _ _ _ _ _ _ (GetApplication_with c id _)), Hrem, Hw.
        by rewrite withApplication_with.
    + destruct (Writer.UpdateApplication W id u) eqn:Hw; simpl.
      * by rewrite (UpdateApplication_run _ _ _ _ _ _ Hget), Hrem, Hw.
      * destruct (bool_decide (UPayPlanType u ≠ "")) eqn:Hpp;
          [destruct (cache.GetPayPlan c (UPayPlanType u)) eqn:Hplan|]; simpl;
          rewrite (UpdateApplication_run _ _ _ _ _ _ (GetApplication_with c id _)),
            Hrem, Hw, Hpp, ?GetPayPlan_with, ?Hplan; simpl;
          by rewrite withApplication_with, ?merge_with_plan_idempotent,
               ?merge_idempotent, ?beforePlan_idempotent.
  - intros body.
    destruct (cache.GetLoadBalancer c id) as [lb|] eqn:Hget;
      [|rewrite (UpdateLoadBalancer_run_absent _ _ _ _ Hget); simpl;
        by rewrite (UpdateLoadBalancer_run_absent _ _ _ _ Hget)].
    destruct body as [u|err];
      [|rewrite (UpdateLoadBalancer_run_undecodable _ _ _ _ _ Hget); simpl;
        by rewrite (UpdateLoadBalancer_run_undecodable _ _ _ _ _ Hget)].
    rewrite (UpdateLoadBalancer_run _ _ _ _ _ Hget).
    destruct (ULBRemove u) eqn:Hrem.
    + destruct (Writer.RemoveLoadBalancer W id) eqn:Hw; simpl.
      * by rewrite (UpdateLoadBalancer_run _ _ _ _ _ Hget), Hrem, Hw.
      * rewrite (UpdateLoadBalancer_run _ _ _ _ _ (GetLoadBalancer_with c id _)), Hrem, Hw.
        by rewrite withLoadBalancer_with.
    + destruct (Writer.UpdateLoadBalancer W id u) eqn:Hw; simpl.
      * by rewrite (UpdateLoadBalancer_run _ _ _ _ _ Hget), Hrem, Hw.
      * rewrite (UpdateLoadBalancer_run _ _ _ _ _ (GetLoadBalancer_with c id _)), Hrem, Hw.
        simpl. by rewrite withLoadBalancer_with, afterUpdateLoadBalancer_idempotent.
Qed.

(** ** The bulk update: which identifier the 404 names *)

Lemma collectApplications_first_missing before missing after : ∀ acc w,
  (∀ id, id ∈ before → is_Some (cache.GetApplication (mirror w) id)) →
  cache.GetApplication (mirror w) missing = None →
  Router.collectApplications (before ++ missing :: after) acc w =
    (Stop (Responded Router.StatusNotFound (JSONError (missing ++ " not found"))), w).
Proof.
  induction before as [|appID before IH]; intros acc w Hall Hnone; simpl.
  - unfold_handler. by rewrite Hnone.
  - unfold_handler.
    destruct (Hall appID) as [app Happ]; [by left|]. rewrite Happ.
    apply IH; [|done]. intros id Hid. apply Hall. by right.
Qed.

(** X8.  The 404 of the bulk update names the first identifier of the list,
    in list order, that the mirror does not hold; the identifiers after it
    are not looked at, the Store is not called and the mirror is as
    before. *)
Theorem bulk_update_names_first_missing W c u before missing after :
  FDSApplicationIDs u = (before ++ missing :: after)%list →
  (∀ id, id ∈ before → is_Some (cache.GetApplication c id)) →
  cache.GetApplication c missing = None →
  run (Router.UpdateFirstDateSurpassed W (Router.DecodeOk u)) c =
    answered Router.StatusNotFound (JSONError (missing ++ " not found")) c [].
Proof.
  intros Hids Hall Hnone.
  unfold Router.UpdateFirstDateSurpassed, answered. unfold_handler.
  rewrite Hids.
  destruct (decide (length (before ++ missing :: after) = 0%nat)) as [Hlen|_].
  { apply nil_length_inv in Hlen. by destruct before. }
  by rewrite collectApplications_first_missing.
Qed.

(** On the sample mirror: of the two identifiers it does not hold, the
    answer names the one that comes first. *)
Lemma bulk_update_names_first_missing_witness :
  run (Router.UpdateFirstDateSurpassed sample.accepting
         (Router.DecodeOk (mkUpdateFirstDateSurpassed ["app2"; "lost"; "app1"; "gone"] 77)))
      sample.c0 =
    answered 404 (JSONError "lost not found") sample.c0 [].
Proof.
  apply (bulk_update_names_first_missing sample.accepting sample.c0
           (mkUpdateFirstDateSurpassed ["app2"; "lost"; "app1"; "gone"] 77)
           ["app2"] "lost" ["app1"; "gone"]).
  - reflexivity.
  - intros id Hin.
    apply elem_of_cons in Hin as [-> | Hin]; [vm_compute; by eexists|].
    by apply elem_of_nil in Hin.
  - vm_compute; reflexivity.
Defined.

(** ** Removal and the by-user listing *)

Lemma omap_length_is_Some {A B : Type} (f g : A → option B) (l : list A) :
  (∀ x, x ∈ l → (is_Some (f x) ↔ is_Some (g x))) →
  length (omap f l) = length (omap g l).
Proof.
  induction l as [|x l IH]; intros Hfg; [done|].
  assert (length (omap f l) = length (omap g l)) as Hrec.
  { apply IH. intros y Hy. apply Hfg. by right. }
  destruct (Hfg x) as [Hf Hg]; [by left|].
  change (omap f (x :: l)) with (match f x with Some y => y :: omap f l | None => omap f l end).
  change (omap g (x :: l)) with (match g x with Some y => y :: omap g l | None => omap g l end).
  destruct (f x) as [b|] eqn:Hfx, (g x) as [b'|] eqn:Hgx.
  - simpl. by f_equal.
  - by destruct Hf as [? ?]; [eexists|].
  - by destruct Hg as [? ?]; [eexists|].
  - done.
Qed.

(** X9.  A removed load balancer is still listed for its former owner.  The
    removal clears the owner on the object and leaves the by-user index as
    it is, so the list-by-user handler asked for the former owner answers
    200 with a list of the same length as before that holds the load
    balancer, now without owner. *)
Theorem removed_load_balancer_stays_listed W c id lb u userID ids :
  cache.GetLoadBalancer c id = Some lb →
  ULBRemove u = true →
  Writer.RemoveLoadBalancer W id = None →
  cache.loadBalancersByUser c !! userID = Some ids →
  id ∈ ids →
  let c' := mirror (run (Router.UpdateLoadBalancer W id (Router.DecodeOk u)) c).2 in
  ∃ lbs,
    run (Router.GetLoadBalancerByUserID userID) c' =
      answered Router.StatusOK (JSONLoadBalancerList lbs) c' [] ∧
    set_LBUserID "" lb ∈ lbs ∧
    LBUserID (set_LBUserID "" lb) = "" ∧
    length lbs = length (cache.GetLoadBalancersByUserID c userID).
Proof.
  intros Hget Hrem Hw Hbucket Hin c'. subst c'.
  rewrite (UpdateLoadBalancer_run _ _ _ _ _ Hget), Hrem, Hw. simpl.
  set (c' := withLoadBalancer id (set_LBUserID "" lb) c).
  assert (set_LBUserID "" lb ∈ cache.GetLoadBalancersByUserID c' userID) as Hlisted.
  { unfold cache.GetLoadBalancersByUserID. subst c'. simpl. rewrite Hbucket. simpl.
    apply list_elem_of_omap. exists id. split; [done|]. apply GetLoadBalancer_with. }
  exists (cache.GetLoadBalancersByUserID c' userID).
  split; [|split; [done|split; [done|]]].
  - unfold Router.GetLoadBalancerByUserID, answered. unfold_handler.
    destruct (cache.GetLoadBalancersByUserID c' userID); [|done].
    by apply elem_of_nil in Hlisted.
  - unfold cache.GetLoadBalancersByUserID. subst c'. simpl.
    apply omap_length_is_Some. intros x _.
    destruct (decide (x = id)) as [->|Hne].
    + rewrite GetLoadBalancer_with, Hget. split; by eexists.
    + unfold cache.GetLoadBalancer, withLoadBalancer. simpl.
      by rewrite lookup_insert_ne.
Qed.

(** On the sample mirror: lb1, which user1 owns, is removed and is still
    answered to user1. *)
Lemma removed_load_balancer_stays_listed_witness :
  ∃ c',
    run (Router.GetLoadBalancerByUserID "user1") c' =
      answered 200 (JSONLoadBalancerList [set_LBUserID "" sample.lb1]) c' [].
Proof.
  destruct (removed_load_balancer_stays_listed sample.accepting sample.c0 "lb1" sample.lb1
              sample.removeLB "user1" ["lb1"])
    as (lbs & Hrun & Hin & _ & Hlen).
  - vm_compute; reflexivity.
  - reflexivity.
  - reflexivity.
  - vm_compute; reflexivity.
  - by left.
  - eexists. rewrite Hrun.
    destruct lbs as [|lb0 [|lb1 lbs]]; [by apply elem_of_nil in Hin| |by vm_compute in Hlen].
    apply elem_of_cons in Hin as [<- | Hin]; [reflexivity|].
    by apply elem_of_nil in Hin.
Defined.

(** ** The authorization middleware *)

(** X10.  The middleware lets a request through to the wrapped handler
    exactly when its path is "/" (the health check) or its Authorization
    header is a key the map holds with value true; what it passes on is the
    wrapped handler's own result.  Every other request (a header that is
    absent, unknown, or a key held with value false) is answered 401
    "Unauthorized" without running the wrapped handler, or panics when that
    answer cannot be written. *)
Theorem authorization_gate {R : Type} (APIKeys : gmap string bool)
    (writeErr : option error) (h : Middleware.Request → R) (r : Middleware.Request) :
  ((∃ x, Middleware.AuthorizationHandler APIKeys writeErr h r = Middleware.Passed x) ↔
   Middleware.Path r = "/" ∨ APIKeys !! Middleware.Authorization r = Some true) ∧
  (∀ x, Middleware.AuthorizationHandler APIKeys writeErr h r = Middleware.Passed x →
        x = h r) ∧
  (Middleware.Path r ≠ "/" →
   APIKeys !! Middleware.Authorization r ≠ Some true →
   Middleware.AuthorizationHandler APIKeys writeErr h r =
     match writeErr with
     | None => Middleware.Written Middleware.StatusUnauthorized "Unauthorized"
     | Some err => Middleware.WritePanicked Middleware.StatusUnauthorized err
     end).
Proof.
  unfold Middleware.AuthorizationHandler, Middleware.writeOrPanic.
  case_bool_decide as Hpath.
  - split; [|split]; [|by intros x [= <-]|done].
    split; [by left | by eexists].
  - destruct (APIKeys !! Middleware.Authorization r) as [[|]|] eqn:Hkey; simpl.
    + split; [|split]; [|by intros x [= <-]|done].
      split; [by right | by eexists].
    + split; [|split]; [|by destruct writeErr|by destruct writeErr].
      split; [by destruct writeErr; intros [x ?] | by intros [?|?]].
    + split; [|split]; [|by destruct writeErr|by destruct writeErr].
      split; [by destruct writeErr; intros [x ?] | by intros [?|?]].
Qed.

(** With the keys alpha (true) and revoked (false), in front of the get of
    app1 on the sample mirror: no header, the revoked key and an unknown key
    are answered 401, the key alpha and the health check path pass. *)
Lemma authorization_gate_witness :
  let h := λ _ : Middleware.Request, run (Router.GetApplication "app1") sample.c0 in
  Middleware.AuthorizationHandler fixtures.keys None h
    (Middleware.mkRequest "/application/app1" "") =
    Middleware.Written 401 "Unauthorized" ∧
  Middleware.AuthorizationHandler fixtures.keys None h
    (Middleware.mkRequest "/application/app1" "revoked") =
    Middleware.Written 401 "Unauthorized" ∧
  Middleware.AuthorizationHandler fixtures.keys (Some "broken pipe") h
    (Middleware.mkRequest "/application/app1" "beta") =
    Middleware.WritePanicked 401 "broken pipe" ∧
  (∃ x, Middleware.AuthorizationHandler fixtures.keys None h
          (Middleware.mkRequest "/application/app1" "alpha") = Middleware.Passed x) ∧
  (∃ x, Middleware.AuthorizationHandler fixtures.keys None h
          (Middleware.mkRequest "/" "") = Middleware.Passed x).
Proof.
  intros h.
  split; [|split; [|split; [|split]]].
  - apply (authorization_gate fixtures.keys None h
             (Middleware.mkRequest "/application/app1" "")); [discriminate|].
    vm_compute; discriminate.
  - apply (authorization_gate fixtures.keys None h
             (Middleware.mkRequest "/application/app1" "revoked")); [discriminate|].
    vm_compute; discriminate.
  - apply (authorization_gate fixtures.keys (Some "broken pipe") h
             (Middleware.mkRequest "/application/app1" "beta")); [discriminate|].
    vm_compute; discriminate.
  - apply (authorization_gate fixtures.keys None h
             (Middleware.mkRequest "/application/app1" "alpha")).
    right. vm_compute; reflexivity.
  - apply (authorization_gate fixtures.keys None h (Middleware.mkRequest "/" "")).
    by left.
Defined.

(** ** The environment package *)

Lemma foldl_insert_true_lookup (k : string) (pieces : list string) :
  ∀ m : gmap string bool,
    foldl (λ (stringMap : gmap string bool) singleString,
             <[singleString := true]> stringMap) m pieces !! k =
    if decide (k ∈ pieces) then Some true else m !! k.
Proof.
  induction pieces as [|piece pieces IH]; intros m.
  - case_decide as Hin; [by apply elem_of_nil in Hin | done].
  - cbn [foldl]. rewrite IH.
    destruct (decide (k ∈ pieces)) as [Hin|Hout].
    + by rewrite decide_True by by right.
    + destruct (decide (k = piece)) as [->|Hne].
      * rewrite decide_True by by left. apply lookup_insert_eq.
      * rewrite decide_False; [by apply lookup_insert_ne|].
        intros [->|Hin]%elem_of_cons; done.
Qed.

(** X11.  The raw string [GetStringMap] splits is the variable's value, or
    the default when the variable is not set or is set to the empty string.
    The map holds exactly the pieces of the split, each with value true: a
    piece is a key, a string that is no piece is no key, and no key is held
    with value false. *)
Theorem string_map_holds_the_pieces (LookupEnv : string → option string)
    (Split : string → string → list string) (varName defaultValue separator : string) :
  let raw := environment.GetString LookupEnv varName defaultValue in
  let stringMap := environment.GetStringMap LookupEnv Split varName defaultValue separator in
  (LookupEnv varName = None ∨ LookupEnv varName = Some "" → raw = defaultValue) ∧
  (∀ val, LookupEnv varName = Some val → val ≠ "" → raw = val) ∧
  (raw = "" → defaultValue = "") ∧
  (∀ k, k ∈ Split raw separator → stringMap !! k = Some true) ∧
  (∀ k, k ∉ Split raw separator → stringMap !! k = None) ∧
  (∀ k, stringMap !! k ≠ Some false).
Proof.
  intros raw stringMap. subst raw stringMap.
  unfold environment.GetStringMap, environment.GetString.
  split; [|split; [|split; [|split; [|split]]]].
  - by intros [-> | ->].
  - intros val -> Hne. simpl. by rewrite bool_decide_eq_false_2.
  - case_bool_decide as Hval; [done|]. intros Hraw. by rewrite Hraw in Hval.
  - intros k Hin. by rewrite foldl_insert_true_lookup, decide_True.
  - intros k Hout. by rewrite foldl_insert_true_lookup, decide_False.
  - intros k. rewrite foldl_insert_true_lookup. by case_decide.
Qed.

(** In the sample environment, with the splitting of strings.Split:
    API_KEYS is "alpha,beta,,alpha", so alpha, beta and the empty string are
    keys and gamma is not; UNSET is not set and EMPTY is set to the empty
    string, so the default "gamma" is split instead. *)
Lemma string_map_holds_the_pieces_witness :
  environment.GetStringMap fixtures.env fixtures.split "API_KEYS" "gamma" "," !! "beta" =
    Some true ∧
  environment.GetStringMap fixtures.env fixtures.split "API_KEYS" "gamma" "," !! "" =
    Some true ∧
  environment.GetStringMap fixtures.env fixtures.split "API_KEYS" "gamma" "," !! "gamma" =
    None ∧
  environment.GetString fixtures.env "UNSET" "gamma" = "gamma" ∧
  environment.GetString fixtures.env "EMPTY" "gamma" = "gamma" ∧
  environment.GetStringMap fixtures.env fixtures.split "EMPTY" "gamma" "," !! "gamma" =
    Some true.
Proof.
  destruct (string_map_holds_the_pieces fixtures.env fixtures.split "API_KEYS" "gamma" ",")
    as (_ & _ & _ & Hin & Hout & _).
  destruct (string_map_holds_the_pieces fixtures.env fixtures.split "UNSET" "gamma" ",")
    as (Hunset & _).
  destruct (string_map_holds_the_pieces fixtures.env fixtures.split "EMPTY" "gamma" ",")
    as (Hempty & _ & _ & HinEmpty & _).
  split; [|split; [|split; [|split; [|split]]]].
  - apply Hin. vm_compute. right. by left.
  - apply Hin. vm_compute. right. right. by left.
  - apply Hout. vm_compute.
    intros Hin'. repeat (apply elem_of_cons in Hin' as [Heq | Hin']; [discriminate Heq|]).
    by apply elem_of_nil in Hin'.
  - apply Hunset. left. vm_compute; reflexivity.
  - apply Hempty. right. vm_compute; reflexivity.
  - apply HinEmpty. vm_compute. by left.
Defined.

(** ** The limits listing *)

Lemma foldl_append_limits (apps : list Application) (acc : list AppLimits) :
  foldl (λ (appsLimits : list AppLimits) app, (appsLimits ++ [Listing.limitsOf app])%list)
        acc apps =
  (acc ++ map Listing.limitsOf apps)%list.
Proof.
  revert acc. induction apps as [|app apps IH]; intros acc; simpl.
  - by rewrite app_nil_r.
  - by rewrite IH, <- app_assoc.
Qed.

(** X12.  The limits listing answers 200 with one entry per application of
    the mirror's list, in the order of that list.  The entry of an
    application carries its identifier, name, owner and public key, the
    plan type and daily limit of its cached limits, its notification
    settings, and its firstDateSurpassed exactly when that is not the zero
    time.  Every application the mirror holds has its entry. *)
Theorem limits_listing_has_one_entry_per_application c :
  (Listing.GetApplicationsLimits c).1 = Router.StatusOK ∧
  length (Listing.GetApplicationsLimits c).2 = length (Listing.GetApplications c) ∧
  (∀ (i : nat) app,
     Listing.GetApplications c !! i = Some app →
     ∃ entry,
       (Listing.GetApplicationsLimits c).2 !! i = Some entry ∧
       AppID entry = ID app ∧ AppName entry = Name app ∧
       AppUserID entry = UserID app ∧
       PublicKey entry = ApplicationPublicKey (GatewayAAT_ app) ∧
       LimitsPlanType entry = LimitsPlanType (Limits app) ∧
       LimitsDailyLimit entry = LimitsDailyLimit (Limits app) ∧
       LimitsNotificationSettings entry = Some (NotificationSettings_ app) ∧
       (FirstDateSurpassed app ≠ time.zero →
        LimitsFirstDateSurpassed entry = Some (FirstDateSurpassed app)) ∧
       (FirstDateSurpassed app = time.zero →
        LimitsFirstDateSurpassed entry = LimitsFirstDateSurpassed (Limits app))) ∧
  (∀ id app,
     cache.GetApplication c id = Some app →
     Listing.limitsOf app ∈ (Listing.GetApplicationsLimits c).2).
Proof.
  unfold Listing.GetApplicationsLimits, Listing.collectLimits. simpl.
  rewrite foldl_append_limits. simpl.
  split; [done|]. split; [by rewrite length_map|]. split.
  - intros i app Hi. exists (Listing.limitsOf app).
    split; [by rewrite list_lookup_fmap, Hi|].
    unfold Listing.limitsOf, time.IsZero, time.zero. simpl.
    destruct (Z.eqb_spec (FirstDateSurpassed app) 0); simpl; repeat split; done.
  - intros id app Hget. apply list_elem_of_fmap. exists app. split; [done|].
    unfold Listing.GetApplications. apply list_elem_of_fmap.
    exists (id, app). split; [done|]. by apply elem_of_map_to_list.
Qed.

(** On the sample mirror with app1's firstDateSurpassed set to the instant
    77: app1 has its entry, with the identifier, the daily limit of its
    cached limits and that instant. *)
Lemma limits_listing_has_one_entry_per_application_witness :
  ∃ entry,
    entry ∈ (Listing.GetApplicationsLimits
               (withApplication "app1" (set_FirstDateSurpassed 77 sample.app1) sample.c0)).2 ∧
    AppID entry = "app1" ∧ LimitsDailyLimit entry = 250000 ∧
    LimitsFirstDateSurpassed entry = Some 77.
Proof.
  destruct (limits_listing_has_one_entry_per_application
              (withApplication "app1" (set_FirstDateSurpassed 77 sample.app1) sample.c0))
    as (_ & _ & _ & Hheld).
  exists (Listing.limitsOf (set_FirstDateSurpassed 77 sample.app1)).
  split; [|by vm_compute].
  apply (Hheld "app1"). apply GetApplication_with.
Defined.
